(** * atom2remarkable: a shallow embedding of config.py, main.py and remarkable.py

    Python strings are lists of code points ([pystr]); Python's Unicode
    character classes ([str.isalnum], [str.isspace]) are taken as
    parameters, since they are the interpreter's tables, not this
    repository's code.  A naive [datetime] is a [Z] count of microseconds since
    1970-01-01T00:00 (wall-clock time, no time zone). *)

From Stdlib Require Import ZArith List String Ascii Bool Lia.
From stdpp Require Import base gmap list.
Import ListNotations.
Open Scope Z_scope.

(* ------------------------------------------------------------------ *)
(** ** Python strings and paths *)

Definition pystr := list Z.

(** Conversion of an ASCII literal to a Python string. *)
Definition s2p (s : string) : pystr :=
  map (fun a => Z.of_nat (nat_of_ascii a)) (list_ascii_of_string s).

(** The interpreter's Unicode tables. *)
Record PyUnicode := {
  py_isalnum : Z -> bool;
  py_isspace : Z -> bool
}.

(** [str.strip()] *)
Definition lstrip (u : PyUnicode) (s : pystr) : pystr :=
  (fix go (s : pystr) := match s with
    | c :: r => if py_isspace u c then go r else s
    | [] => [] end) s.
Definition strip (u : PyUnicode) (s : pystr) : pystr :=
  rev (lstrip u (rev (lstrip u s))).

(** A [pathlib.Path], as its [parts] tuple. *)
Definition Path := list pystr.

(** [p / child] for a single, non-absolute component: joining with the
    empty string leaves the path unchanged, as [Path('a') / ''] does. *)
Definition path_join (p : Path) (child : pystr) : Path :=
  match child with [] => p | _ => p ++ [child] end.

(** [Path.name] and [Path.stem] *)
Definition path_name (p : Path) : pystr := List.last p [].

Fixpoint rfind_dot_aux (s : pystr) (i : nat) (acc : option nat) : option nat :=
  match s with
  | [] => acc
  | c :: r => rfind_dot_aux r (S i) (if Z.eqb c 46 then Some i else acc)
  end.
Definition rfind_dot (s : pystr) : option nat := rfind_dot_aux s 0 None.

Definition path_stem (p : Path) : pystr :=
  let name := path_name p in
  match rfind_dot name with
  | Some i => if (0 <? i)%nat && (i <? length name - 1)%nat
              then firstn i name else name
  | None => name
  end.

(* ------------------------------------------------------------------ *)
(** ** Dates: [datetime] as microseconds, [strftime('%m-%d-%Y')] *)

Definition usec_per_hour : Z := 3600 * 1000000.
Definition usec_per_day : Z := 24 * usec_per_hour.

(** Proleptic Gregorian calendar date of a day count since 1970-01-01. *)
Definition civil_from_days (z : Z) : Z * Z * Z :=
  let z := z + 719468 in
  let era := z / 146097 in
  let doe := z - era * 146097 in
  let yoe := (doe - doe / 1460 + doe / 36524 - doe / 146096) / 365 in
  let y := yoe + era * 400 in
  let doy := doe - (365 * yoe + yoe / 4 - yoe / 100) in
  let mp := (5 * doy + 2) / 153 in
  let d := doy - (153 * mp + 2) / 5 + 1 in
  let m := if mp <? 10 then mp + 3 else mp - 9 in
  (if m <=? 2 then y + 1 else y, m, d).

Fixpoint digits_aux (fuel : nat) (n : Z) (acc : pystr) : pystr :=
  match fuel with
  | O => acc
  | S f => let acc' := (48 + n mod 10) :: acc in
           if n <? 10 then acc' else digits_aux f (n / 10) acc'
  end.
Definition digits (n : Z) : pystr := digits_aux 20 n [].
Definition pad2 (n : Z) : pystr := if n <? 10 then 48 :: digits n else digits n.

Definition strftime_mdy (t : Z) : pystr :=
  let '(y, m, d) := civil_from_days (t / usec_per_day) in
  pad2 m ++ [45] ++ pad2 d ++ [45] ++ digits y.

(* ------------------------------------------------------------------ *)
(** ** config.py *)

Module Config.

  (** [Config.get_cutoff_time()]: [datetime.now() - timedelta(hours=RECENT_HOURS)];
      [now] is the value [datetime.now()] returns at this call. *)
Definition get_cutoff_time (recent_hours now : Z) : Z :=
    now - recent_hours * usec_per_hour.

  (** [c.isalnum() or c in (' ', '-', '_')] *)
Definition safe_char (u : PyUnicode) (c : Z) : bool :=
    py_isalnum u c || Z.eqb c 32 || Z.eqb c 45 || Z.eqb c 95.

  (** ["".join(c for c in title if ...).strip()[:n]] *)
Definition sanitize (u : PyUnicode) (n : nat) (title : pystr) : pystr :=
    firstn n (strip u (filter (safe_char u) title)).

  (** [Config.get_output_filename(entry_title, feed_title, published_date)] *)
Definition get_output_filename (u : PyUnicode) (entry_title feed_title : pystr)
      (published_date : Z) : pystr :=
    strftime_mdy published_date ++ [32] ++ sanitize u 60 entry_title ++ s2p ".pdf".

  (** [Config.get_feed_directory(feed_title)] *)
Definition get_feed_directory (u : PyUnicode) (feed_title : pystr) : pystr :=
    sanitize u 50 feed_title.

End Config.

(** ASCII character classes; Python's tables agree with them on code
    points below 128. *)
Definition ascii_unicode : PyUnicode := {|
  py_isalnum := fun c => ((48 <=? c) && (c <=? 57)) || ((65 <=? c) && (c <=? 90))
                          || ((97 <=? c) && (c <=? 122));
  py_isspace := fun c => Z.eqb c 32 || ((9 <=? c) && (c <=? 13))
|}.

(** [str(path)]: the parts joined by ['/'], the root part ['/'] not doubled. *)
Fixpoint join_slash (ps : list pystr) : pystr :=
  match ps with
  | [] => []
  | [p] => p
  | p :: r => p ++ [47] ++ join_slash r
  end.
Definition path_str (p : Path) : pystr :=
  match p with
  | [47] :: r => 47 :: join_slash r
  | _ => join_slash p
  end.

(** Python string equality. *)
Definition str_eqb (a b : pystr) : bool := bool_decide (a = b).

(* ------------------------------------------------------------------ *)
(** ** remarkable.py: [RemarkableUploader] *)

Module Uploader.

  (** The [rmapi] command lines the uploader runs. *)
Inductive Cmd :=
  | CVersion                            (* rmapi version *)
  | CFind (path : pystr)                (* rmapi find <path> *)
  | CMkdir (path : pystr)               (* rmapi mkdir <path> *)
  | CPut (local : pystr) (folder : pystr). (* rmapi put <local> <folder> *)

  (** What [subprocess.run(..., capture_output=True, text=True, timeout=...)]
      yields, as far as the code inspects it: the exit code, whether
      [stdout.strip()] is non-empty, whether ["already exists"] occurs in
      [stderr.lower()]; or one of the exceptions it may raise. *)
Inductive RunResult :=
  | Completed (returncode : Z) (stdout_nonblank : bool) (stderr_already_exists : bool)
  | TimedOut        (* subprocess.TimeoutExpired *)
  | BinaryNotFound  (* FileNotFoundError *)
  | RunError.       (* any other Exception *)

  (** The remote store behind the bridge tool: the answer to a command in
      a remote state, and the state the command leaves behind. *)
Record Bridge (RS : Type) := {
    run : RS -> Cmd -> RunResult;
    step : RS -> Cmd -> RS
  }.
Arguments run {RS} _ _ _.
Arguments step {RS} _ _ _.

  (** The counts [upload_pdfs] returns. *)
Record UploadCounts := { uploaded : nat; failed : nat; skipped : nat }.

Definition add_uploaded (c : UploadCounts) :=
    {| uploaded := S (uploaded c); failed := failed c; skipped := skipped c |}.
Definition add_failed (c : UploadCounts) :=
    {| uploaded := uploaded c; failed := S (failed c); skipped := skipped c |}.
Definition add_skipped (c : UploadCounts) :=
    {| uploaded := uploaded c; failed := failed c; skipped := S (skipped c) |}.

  (** A state monad over the remote state and the log of commands run. *)
Definition UM (RS A : Type) := RS * list Cmd -> A * (RS * list Cmd).
Definition uret {RS A} (a : A) : UM RS A := fun s => (a, s).
Definition ubind {RS A B} (m : UM RS A) (k : A -> UM RS B) : UM RS B :=
    fun s => let '(a, s') := m s in k a s'.

Notation "'let!' x ':=' m 'in' k" := (ubind m (fun x => k))
    (at level 200, x name, m at level 100, k at level 200).

Section RemarkableUploader.
Context {RS : Type} (br : Bridge RS).
    (** [self.folder_name = Config.REMARKABLE_FOLDER] *)
Context (folder_name : pystr).

Definition subprocess_run (c : Cmd) : UM RS RunResult :=
      fun '(rs, log) => (run br rs c, (step br rs c, log ++ [c])).

Definition check_rmapi_available : UM RS bool :=
      let! r := subprocess_run CVersion in
      uret (match r with Completed rc _ _ => Z.eqb rc 0 | _ => false end).

    (** The body shared by [ensure_folder_exists] and
        [ensure_subfolder_exists]: find, else mkdir tolerating
        "already exists"; any exception gives [False]. *)
Definition find_or_mkdir (p : pystr) : UM RS bool :=
      let! r := subprocess_run (CFind p) in
      match r with
      | Completed rc nonblank _ =>
          if Z.eqb rc 0 && nonblank then uret true
          else
            let! r2 := subprocess_run (CMkdir p) in
            uret (match r2 with
                  | Completed rc2 _ already => Z.eqb rc2 0 || already
                  | _ => false
                  end)
      | _ => uret false
      end.

Definition ensure_folder_exists : UM RS bool := find_or_mkdir folder_name.

Definition ensure_subfolder_exists (subfolder_path : pystr) : UM RS bool :=
      find_or_mkdir subfolder_path.

Definition file_exists_in_remarkable (file_path : pystr) : UM RS bool :=
      let! r := subprocess_run (CFind file_path) in
      uret (match r with Completed rc nonblank _ => Z.eqb rc 0 && nonblank | _ => false end).

Definition get_remarkable_file_path (pdf_path : Path)
        (feed_subfolder : option pystr) : pystr :=
      let file_name := path_stem pdf_path in
      match feed_subfolder with
      | Some ((_ :: _) as sub) => folder_name ++ [47] ++ sub ++ [47] ++ file_name
      | _ => folder_name ++ [47] ++ file_name
      end.

    (** [rmapi put str(pdf_path) target_folder] with the 120 s timeout. *)
Definition put_pdf (pdf_path : Path) (target_folder : pystr) : UM RS bool :=
      let! r := subprocess_run (CPut (path_str pdf_path) target_folder) in
      uret (match r with Completed rc _ _ => Z.eqb rc 0 | _ => false end).

Definition upload_pdf (pdf_path : Path) (feed_subfolder : option pystr) : UM RS bool :=
      let remarkable_file_path := get_remarkable_file_path pdf_path feed_subfolder in
      let! present := file_exists_in_remarkable remarkable_file_path in
      if present then uret true
      else
        match feed_subfolder with
        | Some ((_ :: _) as sub) =>
            let target_folder := folder_name ++ [47] ++ sub in
            let! ok := ensure_folder_exists in
            if negb ok then uret false
            else
              let! ok' := ensure_subfolder_exists target_folder in
              if negb ok' then uret false else put_pdf pdf_path target_folder
        | _ =>
            let! ok := ensure_folder_exists in
            if negb ok then uret false else put_pdf pdf_path folder_name
        end.

    (** [if len(parts) >= 3 and parts[-3] == 'output': feed_subfolder = parts[-2]] *)
Definition feed_subfolder_of (pdf_path : Path) : option pystr :=
      let n := length pdf_path in
      if (3 <=? n)%nat && str_eqb (nth (n - 3) pdf_path []) (s2p "output")
      then Some (nth (n - 2) pdf_path [])
      else None.

    (** One iteration of the loop of [upload_pdfs].  Nothing inside its
        [try] raises in this model ([file_exists_in_remarkable] and
        [upload_pdf] catch their own exceptions), so the [except] branch is
        not reached. *)
Definition upload_one (acc : UploadCounts) (pdf_path : Path) : UM RS UploadCounts :=
      let feed_subfolder := feed_subfolder_of pdf_path in
      let remarkable_file_path := get_remarkable_file_path pdf_path feed_subfolder in
      let! present := file_exists_in_remarkable remarkable_file_path in
      if present then uret (add_skipped acc)
      else
        let! ok := upload_pdf pdf_path feed_subfolder in
        uret (if ok then add_uploaded acc else add_failed acc).

Fixpoint upload_loop (acc : UploadCounts) (pdf_files : list Path) : UM RS UploadCounts :=
      match pdf_files with
      | [] => uret acc
      | p :: rest => let! acc' := upload_one acc p in upload_loop acc' rest
      end.

Definition upload_pdfs (pdf_files : list Path) : UM RS UploadCounts :=
      let! available := check_rmapi_available in
      if negb available
      then uret {| uploaded := 0; failed := 0; skipped := length pdf_files |}
      else
        let! ok := ensure_folder_exists in
        if negb ok
        then uret {| uploaded := 0; failed := 0; skipped := length pdf_files |}
        else upload_loop {| uploaded := 0; failed := 0; skipped := 0 |} pdf_files.

End RemarkableUploader.

End Uploader.

(* ------------------------------------------------------------------ *)
(** ** main.py: [AtomFeedProcessor] *)

Module Processor.

  (** The keys of [self.stats]. *)
Record Stats := {
    feeds_processed : nat; feeds_failed : nat;
    entries_found : nat; entries_recent : nat;
    pdfs_generated : nat; pdfs_skipped : nat; pdfs_failed : nat;
    remarkable_uploaded : nat; remarkable_skipped : nat; remarkable_failed : nat
  }.

Definition zero_stats : Stats := {|
    feeds_processed := 0; feeds_failed := 0; entries_found := 0; entries_recent := 0;
    pdfs_generated := 0; pdfs_skipped := 0; pdfs_failed := 0;
    remarkable_uploaded := 0; remarkable_skipped := 0; remarkable_failed := 0 |}.

Inductive Counter :=
  | FeedsProcessed | FeedsFailed | EntriesFound | EntriesRecent
  | PdfsGenerated | PdfsSkipped | PdfsFailed.

  (** [self.stats[k] += n] *)
Definition bump_stats (k : Counter) (n : nat) (s : Stats) : Stats :=
    let fp := feeds_processed s in let ff := feeds_failed s in
    let ef := entries_found s in let er := entries_recent s in
    let pg := pdfs_generated s in let ps := pdfs_skipped s in let pf := pdfs_failed s in
    let mk fp ff ef er pg ps pf := {|
      feeds_processed := fp; feeds_failed := ff; entries_found := ef; entries_recent := er;
      pdfs_generated := pg; pdfs_skipped := ps; pdfs_failed := pf;
      remarkable_uploaded := remarkable_uploaded s;
      remarkable_skipped := remarkable_skipped s;
      remarkable_failed := remarkable_failed s |} in
    match k with
    | FeedsProcessed => mk (fp + n)%nat ff ef er pg ps pf
    | FeedsFailed => mk fp (ff + n)%nat ef er pg ps pf
    | EntriesFound => mk fp ff (ef + n)%nat er pg ps pf
    | EntriesRecent => mk fp ff ef (er + n)%nat pg ps pf
    | PdfsGenerated => mk fp ff ef er (pg + n)%nat ps pf
    | PdfsSkipped => mk fp ff ef er pg (ps + n)%nat pf
    | PdfsFailed => mk fp ff ef er pg ps (pf + n)%nat
    end.

  (** Outcome of [date_parser.parse(entry.published)] (time zone dropped
      with [replace(tzinfo=None)]): a date, an exception the code catches
      ([ValueError], [TypeError]), or any other exception. *)
Inductive ParseResult := Parsed (ts : Z) | ParseCaught | ParseRaises.

  (** A [feedparser] entry, as the code reads it.  A [*_parsed] field is
      [None] when absent or falsy, [Some None] when
      [datetime( *field[:6])] raises [TypeError] or [ValueError]. *)
Record FeedEntry := {
    e_title : option pystr;
    e_published_parsed : option (option Z);
    e_published : option pystr;
    e_updated_parsed : option (option Z);
    e_content : list (option pystr);  (* items; [None]: item without [.value] *)
    e_summary : option pystr;
    e_description : option pystr;
    e_author : option pystr;
    e_link : option pystr;
    e_id : option pystr
  }.

  (** A parsed feed; [pf_meta_ok = false] when reading [feed.feed] raises. *)
Record ParsedFeed := {
    pf_title : option pystr;
    pf_entries : list FeedEntry;
    pf_meta_ok : bool
  }.

  (** The dict [extract_entry_data] returns ([generated_date] is only
      passed on to the template and is not modelled). *)
Record EntryData := {
    entry_title : pystr; feed_title : pystr; content : pystr;
    author : pystr; link : pystr; entry_id : pystr
  }.

Inductive Node := File | Dir.

  (** What the code observes of the world: configuration, clock, network,
      template, PDF engine, HTML cleaner and uploader. *)
Record Env := {
    recent_hours : Z;                       (* Config.RECENT_HOURS *)
    output_dir : Path;                      (* Path(Config.OUTPUT_DIR) *)
    uni : PyUnicode;
    now_at : nat -> Z;                      (* datetime.now() at the k-th cutoff *)
    date_parse : pystr -> ParseResult;      (* dateutil.parser.parse *)
    fetch_feed : pystr -> option ParsedFeed;(* catches every exception *)
    clean_html_content : pystr -> pystr;    (* catches every exception *)
    title_hash : pystr -> pystr;            (* str(hash(title)) *)
    template_render : EntryData -> Z -> option pystr;
                                            (* get_template + render; None: raises *)
    engine_writes : pystr -> Path -> bool;  (* HTML(...).write_pdf(path, ...) succeeds *)
    upload_pdfs : list Path -> Uploader.UploadCounts
  }.

  (** Events the embedding records: feed fetches, template renders and
      document-engine invocations. *)
Inductive Event := EFetch (url : pystr) | ETemplate | EEngine (p : Path).

Record PState := {
    stats : Stats;
    fs : gmap Path Node;
    clock : nat;             (* number of cutoffs computed so far *)
    events : list Event
  }.

Inductive Exc (A : Type) := Ok (a : A) | Raised.
Arguments Ok {A} a.
Arguments Raised {A}.

  (** Python's statement semantics: a computation may raise, and the
      mutations made before the raise stay. *)
Definition PM (A : Type) := PState -> Exc A * PState.
Definition pret {A} (a : A) : PM A := fun s => (Ok a, s).
Definition praise {A} : PM A := fun s => (Raised, s).
Definition pbind {A B} (m : PM A) (k : A -> PM B) : PM B :=
    fun s => match m s with (Ok a, s') => k a s' | (Raised, s') => (Raised, s') end.
  (** [try: m except Exception: h] *)
Definition try_except {A} (m : PM A) (h : PM A) : PM A :=
    fun s => match m s with (Ok a, s') => (Ok a, s') | (Raised, s') => h s' end.

Notation "'let?' x ':=' m 'in' k" := (pbind m (fun x => k))
    (at level 200, x name, m at level 100, k at level 200).
Notation "m ;; k" := (pbind m (fun _ => k)) (at level 100, right associativity).

Definition bump (k : Counter) (n : nat) : PM unit :=
    fun s => (Ok tt, {| stats := bump_stats k n (stats s); fs := fs s;
                        clock := clock s; events := events s |}).
Definition set_stats (st : Stats) : PM unit :=
    fun s => (Ok tt, {| stats := st; fs := fs s; clock := clock s; events := events s |}).
Definition get_stats : PM Stats := fun s => (Ok (stats s), s).
Definition emit (e : Event) : PM unit :=
    fun s => (Ok tt, {| stats := stats s; fs := fs s; clock := clock s;
                        events := events s ++ [e] |}).
Definition get_fs : PM (gmap Path Node) := fun s => (Ok (fs s), s).
Definition put_fs (m : gmap Path Node) : PM unit :=
    fun s => (Ok tt, {| stats := stats s; fs := m; clock := clock s; events := events s |}).

Section AtomFeedProcessor.
Context (env : Env).

    (** [datetime.now()] as read by [Config.get_cutoff_time()]. *)
Definition read_now : PM Z :=
      fun s => (Ok (now_at env (clock s)),
                {| stats := stats s; fs := fs s; clock := S (clock s); events := events s |}).

    (** [if hasattr(entry, f) and entry.f: try: datetime( *entry.f[:6]) except (TypeError, ValueError): pass] *)
Definition from_struct (f : option (option Z)) : option Z :=
      match f with Some (Some ts) => Some ts | _ => None end.

Definition is_entry_recent (entry : FeedEntry) : PM (bool * option Z) :=
      let? now := read_now in
      let cutoff_time := Config.get_cutoff_time (recent_hours env) now in
      let published_date := from_struct (e_published_parsed entry) in
      let? published_date :=
        match published_date, e_published entry with
        | None, Some text =>
            match date_parse env text with
            | Parsed ts => pret (Some ts)
            | ParseCaught => pret None
            | ParseRaises => praise
            end
        | _, _ => pret published_date
        end in
      let published_date :=
        match published_date with
        | None => from_struct (e_updated_parsed entry)
        | Some _ => published_date
        end in
      match published_date with
      | None => pret (false, None)
      | Some ts => pret (Z.ltb cutoff_time ts, Some ts)
      end.

Definition extract_entry_data (entry : FeedEntry) (ftitle : pystr) : PM EntryData :=
      let title := strip (uni env) (default (s2p "Untitled") (e_title entry)) in
      let? raw :=
        match e_content entry with
        | item :: _ => match item with Some v => pret v | None => praise end
        | [] =>
            match e_summary entry, e_description entry with
            | Some s, _ => pret s
            | None, Some d => pret d
            | None, None => pret []
            end
        end in
      pret {| entry_title := title; feed_title := ftitle;
              content := clean_html_content env raw;
              author := default (s2p "Unknown Author") (e_author entry);
              link := default [] (e_link entry);
              entry_id := default (s2p "entry_" ++ title_hash env title) (e_id entry) |}.

    (** [output_feed_path.mkdir(exist_ok=True)]: no error on an existing
        directory; [FileExistsError] on an existing file,
        [FileNotFoundError] when the parent directory is missing. *)
Definition mkdir_exist_ok (p : Path) : PM unit :=
      let? m := get_fs in
      match m !! p with
      | Some Dir => pret tt
      | Some File => praise
      | None =>
          match m !! removelast p with
          | Some Dir => put_fs (<[p := Dir]> m)
          | _ => praise
          end
      end.

    (** [Path.exists()] *)
Definition path_exists (p : Path) : PM bool :=
      let? m := get_fs in pret (bool_decide (is_Some (m !! p))).

    (** [html_doc.write_pdf(str(output_path), stylesheets=[css_doc])]; a
        failure raises before the target file is written. *)
Definition write_pdf (html : pystr) (output_path : Path) : PM unit :=
      emit (EEngine output_path) ;;
      if engine_writes env html output_path
      then let? m := get_fs in put_fs (<[output_path := File]> m)
      else praise.

Definition generate_pdf (entry_data : EntryData) (published_date : Z)
        (ftitle : pystr) : PM (option Path * bool) :=
      try_except
        (emit ETemplate ;;
         let? html_content :=
           match template_render env entry_data published_date with
           | Some h => pret h
           | None => praise
           end in
         let feed_dir := Config.get_feed_directory (uni env) ftitle in
         let output_feed_path := path_join (output_dir env) feed_dir in
         mkdir_exist_ok output_feed_path ;;
         let base_filename :=
           Config.get_output_filename (uni env) (entry_title entry_data) ftitle published_date in
         let output_path := path_join output_feed_path base_filename in
         let? present := path_exists output_path in
         if present then pret (Some output_path, true)
         else
           write_pdf html_content output_path ;;
           pret (Some output_path, false))
        (pret (None, false)).

    (** The statistics update of [process_feed] after [generate_pdf]. *)
Definition record_pdf_result (acc : nat * list Path) (r : option Path * bool)
        : PM (nat * list Path) :=
      let '(count, paths) := acc in
      match r with
      | (Some p, was_skipped) =>
          bump (if was_skipped then PdfsSkipped else PdfsGenerated) 1 ;;
          pret (S count, paths ++ [p])
      | (None, _) => bump PdfsFailed 1 ;; pret acc
      end.

    (** The [try] block of the loop over [feed.entries]. *)
Definition process_entry_body (ftitle : pystr) (acc : nat * list Path) (entry : FeedEntry)
        : PM (nat * list Path) :=
      let? r := is_entry_recent entry in
      let '(is_recent, published_date) := r in
      if negb is_recent then pret acc
      else
        bump EntriesRecent 1 ;;
        let? entry_data := extract_entry_data entry ftitle in
        match published_date with
        | Some d =>
            let? res := generate_pdf entry_data d ftitle in
            record_pdf_result acc res
        | None => pret acc  (* a recent entry always has a date *)
        end.

    (** One iteration: [try: ... except Exception: self.stats['pdfs_failed'] += 1; continue]. *)
Definition process_entry (ftitle : pystr) (acc : nat * list Path) (entry : FeedEntry)
        : PM (nat * list Path) :=
      try_except (process_entry_body ftitle acc entry) (bump PdfsFailed 1 ;; pret acc).

Fixpoint process_entries (ftitle : pystr) (acc : nat * list Path) (entries : list FeedEntry)
        : PM (nat * list Path) :=
      match entries with
      | [] => pret acc
      | e :: rest => let? acc' := process_entry ftitle acc e in process_entries ftitle acc' rest
      end.

Definition process_feed (feed_url : pystr) : PM (nat * list Path) :=
      emit (EFetch feed_url) ;;
      match fetch_feed env feed_url with
      | None => bump FeedsFailed 1 ;; pret (0%nat, [])
      | Some feed =>
          bump FeedsProcessed 1 ;;
          if negb (pf_meta_ok feed) then praise
          else
            let ftitle := default (s2p "Unknown Feed") (pf_title feed) in
            bump EntriesFound (length (pf_entries feed)) ;;
            process_entries ftitle (0%nat, []) (pf_entries feed)
      end.

    (** One iteration of the loop over [feeds]: [try: ... except Exception:
        self.stats['feeds_failed'] += 1; continue]. *)
Definition process_one_feed (acc : nat * list Path) (feed_url : pystr)
        : PM (nat * list Path) :=
      try_except
        (let? r := process_feed feed_url in
         let '(pdfs_count, feed_pdfs) := r in
         pret ((fst acc + pdfs_count)%nat, snd acc ++ feed_pdfs))
        (bump FeedsFailed 1 ;; pret acc).

Fixpoint process_feeds (acc : nat * list Path) (feeds : list pystr) : PM (nat * list Path) :=
      match feeds with
      | [] => pret acc
      | u :: rest => let? acc' := process_one_feed acc u in process_feeds acc' rest
      end.

    (** [process_all_feeds]; [feeds] is what [load_feeds()] returned. *)
Definition process_all_feeds (feeds : list pystr) : PM Stats :=
      set_stats zero_stats ;;
      match feeds with
      | [] => get_stats
      | _ :: _ =>
          let? r := process_feeds (0%nat, []) feeds in
          let '(_, generated_pdfs) := r in
          match generated_pdfs with
          | [] => get_stats
          | _ :: _ =>
              let c := upload_pdfs env generated_pdfs in
              let? st := get_stats in
              set_stats {| feeds_processed := feeds_processed st; feeds_failed := feeds_failed st;
                           entries_found := entries_found st; entries_recent := entries_recent st;
                           pdfs_generated := pdfs_generated st; pdfs_skipped := pdfs_skipped st;
                           pdfs_failed := pdfs_failed st;
                           remarkable_uploaded := Uploader.uploaded c;
                           remarkable_skipped := Uploader.skipped c;
                           remarkable_failed := Uploader.failed c |} ;;
              get_stats
          end
      end.

End AtomFeedProcessor.


End Processor.

(* ------------------------------------------------------------------ *)
(** ** Concrete inputs *)

Module Inputs.
Import Processor.

  (** 2025-07-28 12:00:00 *)
Definition t0 : Z := (1753660800 + 12 * 3600) * 1000000.

Definition out_dir : Path := [s2p "/"; s2p "app"; s2p "output"].

Definition fs0 : gmap Path Node :=
    <[out_dir := Dir]> (<[[s2p "/"; s2p "app"] := Dir]> {[ [s2p "/"] := Dir ]}).

Definition st0 : PState := {| stats := zero_stats; fs := fs0; clock := 0; events := [] |}.

Definition overflow_text : pystr := s2p "99999999999999999999".

  (** dateutil: [OverflowError] on a year beyond the C integer range,
      [ParserError] (a [ValueError]) on text that is not a date. *)
Definition dateutil_parse (text : pystr) : ParseResult :=
    if str_eqb text overflow_text then ParseRaises else ParseCaught.

Definition entry_at (title : pystr) (ts : Z) : FeedEntry := {|
    e_title := Some title; e_published_parsed := Some (Some ts); e_published := None;
    e_updated_parsed := None; e_content := []; e_summary := Some (s2p "<p>x</p>");
    e_description := None; e_author := None; e_link := None; e_id := None |}.

  (** A renderer whose output is the entry title. *)
Definition title_template (ed : EntryData) (_ : Z) : option pystr := Some (entry_title ed).

Definition mk_env (now : nat -> Z) (tmpl : EntryData -> Z -> option pystr)
      (engine : pystr -> Path -> bool) (feeds : pystr -> option ParsedFeed) : Env := {|
    recent_hours := 24; output_dir := out_dir; uni := ascii_unicode; now_at := now;
    date_parse := dateutil_parse; fetch_feed := feeds; clean_html_content := fun c => c;
    title_hash := fun _ => s2p "0"; template_render := tmpl; engine_writes := engine;
    upload_pdfs := fun ps => {| Uploader.uploaded := length ps; Uploader.failed := 0;
                                Uploader.skipped := 0 |} |}.

Definition hour : Z := 3600 * 1000000.
Definition my_feed : pystr := s2p "My Feed".
Definition feed_dir_path : Path := out_dir ++ [my_feed].
Definition no_feeds (_ : pystr) : option ParsedFeed := None.

Definition article_pdf : Path := feed_dir_path ++ [s2p "07-28-2025 My Article.pdf"].

  (** A working template and engine. *)
Definition env_ok : Env := mk_env (fun _ => t0) title_template (fun _ _ => true) no_feeds.



  (** C7: the clock advances one second per cutoff computation; the entry
      was published half a second after the first cutoff. *)
Definition ticking_clock (k : nat) : Z := t0 + Z.of_nat k * 1000000.
Definition env_ticking : Env :=
    mk_env ticking_clock title_template (fun _ _ => true) no_feeds.
Definition edge_ts : Z := t0 - 24 * hour + 500000.
Definition edge_entry : FeedEntry := entry_at (s2p "Edge") edge_ts.

  (** C5: an entry whose only date is free text that dateutil rejects with
      [OverflowError]. *)
Definition text_dated_entry (text : pystr) (updated : option (option Z)) : FeedEntry := {|
    e_title := Some (s2p "Post"); e_published_parsed := None; e_published := Some text;
    e_updated_parsed := updated; e_content := []; e_summary := Some (s2p "<p>x</p>");
    e_description := None; e_author := None; e_link := None; e_id := None |}.

End Inputs.

(* ------------------------------------------------------------------ *)
(** ** Spec-side definitions *)

Module UploaderSpec.
Import Uploader.

  (** The remote key as the spec words it: the parent directory name is
      the subfolder exactly when the grandparent segment is the configured
      output root, the last component of [Config.OUTPUT_DIR]. *)
Definition remote_key_spec (output_dir : Path) (folder_name : pystr) (pdf_path : Path) : pystr :=
    let n := length pdf_path in
    if (3 <=? n)%nat && str_eqb (nth (n - 3) pdf_path []) (path_name output_dir)
    then folder_name ++ [47] ++ nth (n - 2) pdf_path [] ++ [47] ++ path_stem pdf_path
    else folder_name ++ [47] ++ path_stem pdf_path.

Definition is_put (c : Cmd) : bool := match c with CPut _ _ => true | _ => false end.

Definition total (c : UploadCounts) : nat := (uploaded c + skipped c + failed c)%nat.

Definition fast_fail_counts (pdf_files : list Path) : UploadCounts :=
    {| uploaded := 0; failed := 0; skipped := length pdf_files |}.

  (** Runs that append only commands other than [rmapi put] to the log. *)
Definition no_put {RS A} (m : UM RS A) : Prop :=
    forall s a s', m s = (a, s') ->
      exists added, snd s' = snd s ++ added /\ Forall (fun c => is_put c = false) added.

End UploaderSpec.

Module UploaderInputs.
Import Uploader.

  (** [rmapi] is not installed: every command raises [FileNotFoundError]. *)
Definition missing_rmapi : Bridge unit := {|
    run := fun _ _ => BinaryNotFound; step := fun r _ => r |}.

  (** A remote store in which every [find] reports a match. *)
Definition full_store : Bridge unit := {|
    run := fun _ c => match c with
                      | CFind _ => Completed 0 true false
                      | _ => Completed 0 false false
                      end;
    step := fun r _ => r |}.

Definition atom_feeds : pystr := s2p "AtomFeeds".

  (** [--output-dir /data/pdfs] and a document written below it. *)
Definition data_pdfs : Path := [s2p "/"; s2p "data"; s2p "pdfs"].
Definition doc_under_data_pdfs : Path :=
    data_pdfs ++ [s2p "Feed"; s2p "07-28-2025 A.pdf"].

End UploaderInputs.

Module ProcessorSpec.
Import Processor.

  (** The feed URLs fetched, in order, according to an event log. *)
Definition fetched (l : list Event) : list pystr :=
    flat_map (fun e => match e with EFetch u => [u] | _ => [] end) l.


Definition fetch_log (s : PState) : list pystr := fetched (events s).

  (** The state after [self.stats[k] += 1]. *)
Definition bumped (k : Counter) (s : PState) : PState := snd (bump k 1 s).

  (** [m] changes the observation [f] of the state by [g], whether it
      returns or raises. *)
Definition moves {X A} (f : PState -> X) (g : X -> X) (m : PM A) : Prop :=
    forall s r s', m s = (r, s') -> f s' = g (f s).

Definition never_raises {A} (m : PM A) : Prop :=
    forall s, exists a s', m s = (Ok a, s').

  (** The output path [generate_pdf] computes. *)
Definition output_feed_path (env : Env) (ftitle : pystr) : Path :=
    path_join (output_dir env) (Config.get_feed_directory (uni env) ftitle).
Definition output_path (env : Env) (ed : EntryData) (d : Z) (ftitle : pystr) : Path :=
    path_join (output_feed_path env ftitle)
      (Config.get_output_filename (uni env) (entry_title ed) ftitle d).

End ProcessorSpec.

(* ------------------------------------------------------------------ *)
(** ** More of Python's [str]: [startswith], [replace], [str(int)] *)

Module PyStr.

  (** [s.startswith(prefix)] *)
Fixpoint startswith (s prefix : pystr) : bool :=
    match prefix, s with
    | [], _ => true
    | c :: p, d :: r => Z.eqb c d && startswith r p
    | _ :: _, [] => false
    end.

  (** [s.replace(old, new)] for a non-empty [old]: a left-to-right scan
      replacing non-overlapping occurrences.  Every step consumes at least
      one character, so [length s] steps suffice. *)
Fixpoint replace_aux (fuel : nat) (s old new : pystr) : pystr :=
    match fuel with
    | O => s
    | S f =>
        match s with
        | [] => []
        | c :: r =>
            if startswith s old then new ++ replace_aux f (drop (length old) s) old new
            else c :: replace_aux f r old new
        end
    end.

  (** [s.replace(old, new)]; an empty [old] matches before every character
      and at the end. *)
Definition replace (s old new : pystr) : pystr :=
    match old with
    | [] => new ++ flat_map (fun c => c :: new) s
    | _ :: _ => replace_aux (length s) s old new
    end.

  (** [str(n)] / [f'{n}'] for an [int]. *)
Definition int_str (n : Z) : pystr :=
    let m := Z.abs n in
    let ds := digits_aux (S (Z.to_nat (Z.log2 m))) m [] in
    if n <? 0 then 45 :: ds else ds.

  (** The lines joined by ["\n"]. *)
Fixpoint join_nl (ls : list pystr) : pystr :=
    match ls with
    | [] => []
    | [l] => l
    | l :: r => l ++ [10] ++ join_nl r
    end.

End PyStr.

(* ------------------------------------------------------------------ *)
(** ** config.py's class body, [Config.setup_directories],
       [AtomFeedProcessor.__init__] and [main()] *)

Module Startup.

  (** Values of the attributes of [class Config]. *)
Inductive PyVal := VStr (s : pystr) | VInt (n : Z) | VFunc.


  (** The attributes of [class Config], by name. *)
Notation Namespace := (gmap pystr PyVal) (only parsing).

Definition getattr_str (ns : Namespace) (k : string) : option pystr :=
    match ns !! s2p k with Some (VStr s) => Some s | _ => None end.

  (** [os.path.join(a, b)] (posixpath). *)
Definition os_path_join (a b : pystr) : pystr :=
    if PyStr.startswith b [47] then b
    else match a with
         | [] => b
         | _ :: _ => if Z.eqb (List.last a 0) 47 then a ++ b else a ++ [47] ++ b
         end.

  (** [os.getenv(k, d)] *)
Definition os_getenv (environ : gmap pystr pystr) (k : string) (d : pystr) : pystr :=
    default d (environ !! s2p k).

  (** The class body of [Config], evaluated when [config] is imported:
      [environ] is [os.environ], [module_dir] is
      [os.path.dirname(os.path.abspath(__file__))], [py_int] is the
      builtin [int] on a string ([None]: it raises [ValueError], and the
      import fails). *)
Definition config_class (environ : gmap pystr pystr) (module_dir : pystr)
      (py_int : pystr -> option Z) : option Namespace :=
    let getenv k d := os_getenv environ k d in
    let APP_ROOT := getenv "APP_ROOT"%string module_dir in
    let FEEDS_FILE := getenv "FEEDS_FILE"%string (os_path_join APP_ROOT (s2p "feeds.txt")) in
    let OUTPUT_DIR := getenv "OUTPUT_DIR"%string (os_path_join APP_ROOT (s2p "output")) in
    let LOG_DIR := getenv "LOG_DIR"%string (os_path_join APP_ROOT (s2p "logs")) in
    match py_int (getenv "RECENT_HOURS"%string (s2p "24")) with
    | None => None
    | Some RECENT_HOURS =>
    match py_int (getenv "MAX_IMAGE_WIDTH"%string (s2p "400")) with
    | None => None
    | Some MAX_IMAGE_WIDTH =>
    match py_int (getenv "PDF_FONT_SIZE"%string (s2p "13")) with
    | None => None
    | Some PDF_FONT_SIZE =>
    let TEMPLATE_DIR := getenv "TEMPLATE_DIR"%string (os_path_join APP_ROOT (s2p "templates")) in
    let CSS_FILE := getenv "CSS_FILE"%string
          (os_path_join (os_path_join APP_ROOT (s2p "templates")) (s2p "style.css")) in
    match py_int (getenv "REQUEST_TIMEOUT"%string (s2p "30")) with
    | None => None
    | Some REQUEST_TIMEOUT =>
    let REMARKABLE_FOLDER := getenv "REMARKABLE_FOLDER"%string (s2p "AtomFeeds") in
    let RMAPI_PATH := getenv "RMAPI_PATH"%string (s2p "rmapi") in
    Some (list_to_map [
      (s2p "APP_ROOT", VStr APP_ROOT);
      (s2p "FEEDS_FILE", VStr FEEDS_FILE);
      (s2p "OUTPUT_DIR", VStr OUTPUT_DIR);
      (s2p "LOG_DIR", VStr LOG_DIR);
      (s2p "RECENT_HOURS", VInt RECENT_HOURS);
      (s2p "PDF_PAGE_SIZE", VStr (s2p "A4"));
      (s2p "PDF_MARGIN", VStr (s2p "0.375in"));
      (s2p "MAX_IMAGE_WIDTH", VInt MAX_IMAGE_WIDTH);
      (s2p "PDF_FONT_SIZE", VInt PDF_FONT_SIZE);
      (s2p "TEMPLATE_DIR", VStr TEMPLATE_DIR);
      (s2p "CSS_FILE", VStr CSS_FILE);
      (s2p "DATE_FORMAT", VStr (s2p "%Y-%m-%d_%H-%M-%S"));
      (s2p "LOG_DATE_FORMAT", VStr (s2p "%Y-%m-%d %H:%M:%S"));
      (s2p "REQUEST_TIMEOUT", VInt REQUEST_TIMEOUT);
      (s2p "USER_AGENT", VStr (s2p "atom2remarkable/1.0 (Feed to PDF Converter)"));
      (s2p "REMARKABLE_FOLDER", VStr REMARKABLE_FOLDER);
      (s2p "RMAPI_PATH", VStr RMAPI_PATH);
      (s2p "get_cutoff_time", VFunc);
      (s2p "get_output_filename", VFunc);
      (s2p "get_feed_directory", VFunc);
      (s2p "setup_directories", VFunc)])
    end end end end.

  (** The options [argparse] returned ([None]: not given). *)
Record Args := {
    feeds_file : option pystr;
    output_dir : option pystr;
    recent_hours : option Z;
    remarkable_folder : option pystr;
    rmapi_path : option pystr
  }.

  (** [if args.x: Config.X = args.x] for a string option. *)
Definition override_str (o : option pystr) (k : string) (ns : Namespace) : Namespace :=
    match o with
    | Some ((_ :: _) as s) => <[s2p k := VStr s]> ns
    | _ => ns
    end.

  (** The overrides of [main()] from the command line. *)
Definition apply_overrides (args : Args) (ns : Namespace) : Namespace :=
    let ns := override_str (feeds_file args) "FEEDS_FILE" ns in
    let ns := override_str (output_dir args) "OUTPUT_DIR" ns in
    let ns := match recent_hours args with
              | Some n => if Z.eqb n 0 then ns else <[s2p "RECENT_HOURS" := VInt n]> ns
              | None => ns
              end in
    let ns := override_str (remarkable_folder args) "REMARKABLE_FOLDER" ns in
    override_str (rmapi_path args) "RMAPI_PATH" ns.

  (** The operating system as the start-up code observes it. *)
Record OS (W : Type) := {
    os_now : W -> Z;                          (* datetime.now() *)
    os_exists : W -> pystr -> bool;           (* os.path.exists(p) *)
    os_mkdir : W -> pystr -> option W;        (* Path(p).mkdir(exist_ok=True); None: raises *)
    os_open_log : W -> pystr -> pystr -> option W
                                              (* logging.FileHandler(Path(d) / name); None: raises *)
  }.
Arguments os_now {W} _ _.
Arguments os_exists {W} _ _ _.
Arguments os_mkdir {W} _ _ _.
Arguments os_open_log {W} _ _ _ _.




Section Init.
Context {W : Type} (os : OS W).


    (** [Config.setup_directories()]: it may rebind [TEMPLATE_DIR] and
        [CSS_FILE]. *)
Definition setup_directories (ns : Namespace) (w : W) : Processor.Exc Namespace * W :=
      match getattr_str ns "OUTPUT_DIR" with
      | None => (Processor.Raised, w)
      | Some out =>
      match os_mkdir os w out with
      | None => (Processor.Raised, w)
      | Some w1 =>
      match getattr_str ns "LOG_DIR" with
      | None => (Processor.Raised, w1)
      | Some logs =>
      match os_mkdir os w1 logs with
      | None => (Processor.Raised, w1)
      | Some w2 =>
      match getattr_str ns "TEMPLATE_DIR" with
      | None => (Processor.Raised, w2)
      | Some tdir =>
          if os_exists os w2 tdir then (Processor.Ok ns, w2)
          else
            match getattr_str ns "APP_ROOT" with
            | None => (Processor.Raised, w2)
            | Some root =>
                let potential_paths :=
                  [os_path_join root (s2p "templates"); s2p "/usr/src/app/templates";
                   s2p "/templates"] in
                match List.find (os_exists os w2) potential_paths with
                | Some path =>
                    (Processor.Ok (<[s2p "CSS_FILE" := VStr (os_path_join path (s2p "style.css"))]>
                                     (<[s2p "TEMPLATE_DIR" := VStr path]> ns)), w2)
                | None => (Processor.Ok ns, w2)
                end
            end
      end end end end end.



End Init.

End Startup.

(* ------------------------------------------------------------------ *)
(** ** main.py: [load_feeds], [get_pdf_styles], [get_fallback_styles] *)

Module ProcessorIO.

  (** Text-mode reading with universal newlines: ["\r\n"] and ["\r"]
      become ["\n"]. *)
Fixpoint translate_newlines (s : pystr) : pystr :=
    match s with
    | 13 :: 10 :: r => 10 :: translate_newlines r
    | 13 :: r => 10 :: translate_newlines r
    | c :: r => c :: translate_newlines r
    | [] => []
    end.

Fixpoint split_lines_aux (s cur : pystr) : list pystr :=
    match s with
    | [] => match cur with [] => [] | _ :: _ => [rev cur] end
    | 10 :: r => rev (10 :: cur) :: split_lines_aux r []
    | c :: r => split_lines_aux r (c :: cur)
    end.

  (** [for line in f]: the lines of the file, each with its ["\n"]. *)
Definition file_lines (text : pystr) : list pystr :=
    split_lines_aux (translate_newlines text) [].

  (** [line.strip() and not line.startswith('#')] *)
Definition feed_line (u : PyUnicode) (line : pystr) : bool :=
    match strip u line with [] => false | _ :: _ => true end &&
    negb (PyStr.startswith line [35]).

  (** [AtomFeedProcessor.load_feeds]; [feeds_file] is [None] when
      [Path(Config.FEEDS_FILE).exists()] is false, [Some None] when opening
      or decoding it raises, [Some (Some text)] otherwise. *)
Definition load_feeds (u : PyUnicode) (feeds_file : option (option pystr)) : list pystr :=
    match feeds_file with
    | None => []
    | Some None => []
    | Some (Some text) => map (strip u) (List.filter (feed_line u) (file_lines text))
    end.

  (** [AtomFeedProcessor.get_fallback_styles] *)
Definition get_fallback_styles (page_size margin : pystr) (font_size max_image_width : Z)
      : pystr :=
    PyStr.join_nl [
      [];
      s2p "        @page {";
      s2p "            size: " ++ page_size ++ s2p ";";
      s2p "            margin: " ++ margin ++ s2p ";";
      s2p "        }";
      s2p "        body {";
      s2p "            font-family: 'Georgia', serif;";
      s2p "            font-size: " ++ PyStr.int_str font_size ++ s2p "px;";
      s2p "            line-height: 1.5;";
      s2p "            color: #333;";
      s2p "        }";
      s2p "        h1 { font-size: 24px; color: #2c3e50; }";
      s2p "        .metadata { background-color: #f8f9fa; padding: 20px; }";
      s2p "        .content { text-align: justify; }";
      s2p "        img { ";
      s2p "            max-width: " ++ PyStr.int_str max_image_width ++ s2p "px; ";
      s2p "            width: 100%; ";
      s2p "            height: auto; ";
      s2p "        }";
      s2p "        "].

  (** [AtomFeedProcessor.get_pdf_styles]; [css_file] as for [load_feeds]
      ([Config.CSS_FILE]); the other arguments are [Config.PDF_PAGE_SIZE],
      [Config.PDF_MARGIN], [Config.PDF_FONT_SIZE] and
      [Config.MAX_IMAGE_WIDTH]. *)
Definition get_pdf_styles (css_file : option (option pystr)) (page_size margin : pystr)
      (font_size max_image_width : Z) : pystr :=
    match css_file with
    | Some (Some css_content) =>
        let css_content :=
          PyStr.replace css_content (s2p "13px") (PyStr.int_str font_size ++ s2p "px") in
        let css_content :=
          PyStr.replace css_content (s2p "400px") (PyStr.int_str max_image_width ++ s2p "px") in
        let css_content := PyStr.replace css_content (s2p "A4") page_size in
        PyStr.replace css_content (s2p "0.375in") margin
    | _ => get_fallback_styles page_size margin font_size max_image_width
    end.

End ProcessorIO.

(* ------------------------------------------------------------------ *)
(** ** Spec-side definitions for the further properties *)

Module ProcessorStatsSpec.
Import Processor.

Definition pgps (st : Stats) : nat := (pdfs_generated st + pdfs_skipped st)%nat.
Definition pall (st : Stats) : nat := (pgps st + pdfs_failed st)%nat.
Definition remote_counts (st : Stats) : nat * nat * nat :=
    (remarkable_uploaded st, remarkable_skipped st, remarkable_failed st).

Definition fs_grows (s s' : PState) : Prop :=
    forall q, is_Some (fs s !! q) -> is_Some (fs s' !! q).

Definition present (s : PState) (p : Path) : Prop := is_Some (fs s !! p).

  (** How a run changes the document counters and the collected paths:
      [a] paths are added, [a <= b <= c <= n] with [b] the growth of
      [entries_recent] and [c] that of the three document counters. *)
Definition pdf_delta (n : nat) (s : PState) (acc r : nat * list Path) (s' : PState) : Prop :=
    exists a b c new,
      (a <= b <= c)%nat /\ (c <= n)%nat /\
      pgps (stats s') = (pgps (stats s) + a)%nat /\
      entries_recent (stats s') = (entries_recent (stats s) + b)%nat /\
      pall (stats s') = (pall (stats s) + c)%nat /\
      snd r = snd acc ++ new /\ length new = a /\
      fs_grows s s' /\ Forall (present s') new /\
      remote_counts (stats s') = remote_counts (stats s).

End ProcessorStatsSpec.

Module UploaderPutSpec.
Import Uploader UploaderSpec.

  (** The folder [upload_pdf] puts a document into, for the subfolder
      [upload_pdfs] derives from its path. *)
Definition upload_target (folder_name : pystr) (pdf_path : Path) : pystr :=
    match feed_subfolder_of pdf_path with
    | Some ((_ :: _) as sub) => folder_name ++ [47] ++ sub
    | _ => folder_name
    end.

  (** Runs whose [rmapi put] commands, in order, form a subsequence of [l]. *)
Definition puts_within {RS A} (m : UM RS A) (l : list Cmd) : Prop :=
    forall s a s', m s = (a, s') ->
      exists added, snd s' = snd s ++ added /\ sublist (List.filter is_put added) l.

End UploaderPutSpec.

Module StripSpec.
Section U.
Context (u : PyUnicode).

(** A string that does not start with a whitespace character. *)
Definition head_not_space (s : pystr) : Prop :=
  match s with c :: _ => py_isspace u c = false | [] => True end.

End U.
End StripSpec.

Module ExtraInputs.
Import Processor Inputs.

(** [int(s)] on a string of ASCII digits; any other string raises
    ([None]). *)
Fixpoint py_int_aux (s : pystr) (acc : Z) : option Z :=
    match s with
    | [] => Some acc
    | c :: r => if (48 <=? c) && (c <=? 57) then py_int_aux r (acc * 10 + (c - 48)) else None
    end.

Definition py_int_digits (s : pystr) : option Z :=
    match s with [] => None | _ :: _ => py_int_aux s 0 end.

(** [Config] as imported with an empty environment, from [/app]. *)
Definition default_ns : gmap pystr Startup.PyVal :=
    default ∅ (Startup.config_class ∅ (s2p "/app") py_int_digits).

(** A machine on which only [/templates] exists. *)
Definition os_templates : Startup.OS unit := {|
    Startup.os_now := fun _ => t0;
    Startup.os_exists := fun _ p => str_eqb p (s2p "/templates");
    Startup.os_mkdir := fun w _ => Some w;
    Startup.os_open_log := fun w _ _ => Some w |}.


(** [--output-dir ""] and [--recent-hours 0]. *)
Definition zero_args : Startup.Args := {|
    Startup.feeds_file := None; Startup.output_dir := Some []; Startup.recent_hours := Some 0;
    Startup.remarkable_folder := None; Startup.rmapi_path := None |}.


(** An entry whose title is only whitespace. *)
Definition blank_entry : FeedEntry := entry_at (s2p "  ") (t0 - hour).


(** A feeds file with an indented comment line. *)
Definition feeds_text : pystr := s2p "  #x" ++ [10] ++ s2p "https://example.org/atom.xml".

End ExtraInputs.

(* ------------------------------------------------------------------ *)
(** ** Uploader lemmas *)

Module UploaderFacts.
Import Uploader UploaderSpec.

Section Facts.
Context {RS : Type} (br : Bridge RS) (folder_name : pystr).

Lemma no_put_ret {A} (a : A) : no_put (RS:=RS) (uret a).
Proof. intros s b s' H. injection H as <- <-. exists []. rewrite app_nil_r. auto. Qed.

Lemma no_put_bind {A B} (m : UM RS A) (k : A -> UM RS B) :
      no_put m -> (forall a, no_put (k a)) -> no_put (ubind m k).
Proof.
      intros Hm Hk s b s' H. unfold ubind in H.
      destruct (m s) as [a s1] eqn:E1.
      destruct (Hm _ _ _ E1) as [l1 [Hl1 F1]].
      destruct (Hk _ _ _ _ H) as [l2 [Hl2 F2]].
      exists (l1 ++ l2). rewrite Hl2, Hl1, app_assoc. split; [reflexivity|].
      apply Forall_app; auto.
Qed.

Lemma no_put_run (c : Cmd) : is_put c = false -> no_put (subprocess_run br c).
Proof.
      intros Hc [rs log] a s' H. simpl in H. injection H as <- <-.
      exists [c]. simpl. auto.
Qed.

Lemma no_put_find_or_mkdir (p : pystr) : no_put (find_or_mkdir br p).
Proof.
      unfold find_or_mkdir. apply no_put_bind; [apply no_put_run; reflexivity|].
      intros [rc nb ae| | |]; try apply no_put_ret.
      destruct (Z.eqb rc 0 && nb); [apply no_put_ret|].
      apply no_put_bind; [apply no_put_run; reflexivity|]. intros; apply no_put_ret.
Qed.

Lemma no_put_check : no_put (check_rmapi_available br).
Proof.
      unfold check_rmapi_available. apply no_put_bind; [apply no_put_run; reflexivity|].
      intros; apply no_put_ret.
Qed.

Lemma upload_one_cases acc p s c s' :
      upload_one br folder_name acc p s = (c, s') ->
      c = add_skipped acc \/ c = add_uploaded acc \/ c = add_failed acc.
Proof.
      unfold upload_one, ubind. intros H.
      destruct (file_exists_in_remarkable br _ s) as [[] s1].
      - injection H as <- _. auto.
      - destruct (upload_pdf br folder_name p _ s1) as [[] s2]; injection H as <- _; auto.
Qed.

Lemma upload_loop_total acc paths s c s' :
      upload_loop br folder_name acc paths s = (c, s') ->
      total c = (total acc + length paths)%nat.
Proof.
      revert acc s. induction paths as [|p rest IH]; intros acc s H; simpl in H.
      - injection H as <- _. simpl. lia.
      - unfold ubind in H. destruct (upload_one br folder_name acc p s) as [acc1 s1] eqn:E.
        apply IH in H. rewrite H.
        destruct (upload_one_cases _ _ _ _ _ E) as [-> | [-> | ->]];
          unfold total; simpl; lia.
Qed.

End Facts.
End UploaderFacts.

(* ------------------------------------------------------------------ *)
(** ** Processor lemmas *)

Module ProcessorFacts.
Import Processor ProcessorSpec.

Section Moves.
Context {X : Type} (f : PState -> X).

Lemma moves_ret {A} (a : A) : moves f (fun x => x) (pret a).
Proof. intros s r s' H. injection H as _ <-. reflexivity. Qed.

Lemma moves_raise {A} : moves f (fun x => x) (@praise A).
Proof. intros s r s' H. injection H as _ <-. reflexivity. Qed.

Lemma moves_bind {A B} g (m : PM A) (k : A -> PM B) :
      moves f g m -> (forall a, moves f (fun x => x) (k a)) -> moves f g (pbind m k).
Proof.
      intros Hm Hk s r s' H. unfold pbind in H.
      destruct (m s) as [[a|] s1] eqn:E.
      - rewrite (Hk _ _ _ _ H). exact (Hm _ _ _ E).
      - injection H as _ <-. exact (Hm _ _ _ E).
Qed.

Lemma moves_try {A} g (m h : PM A) :
      moves f g m -> moves f (fun x => x) h -> moves f g (try_except m h).
Proof.
      intros Hm Hh s r s' H. unfold try_except in H.
      destruct (m s) as [[a|] s1] eqn:E.
      - injection H as _ <-. exact (Hm _ _ _ E).
      - rewrite (Hh _ _ _ H). exact (Hm _ _ _ E).
Qed.
End Moves.

Lemma never_raises_try {A} (m h : PM A) : never_raises h -> never_raises (try_except m h).
Proof.
    intros Hh s. unfold try_except. destruct (m s) as [[a|] s1]; eauto.
Qed.

Lemma never_raises_bump_ret {A} k n (a : A) : never_raises (bump k n ;; pret a).
Proof. intros s. eexists _, _. reflexivity. Qed.

  (** Primitive steps: what they do to the clock and to the fetch log. *)
Lemma clock_bump k n : moves clock (fun x => x) (bump k n).
Proof. intros s r s' H. injection H as _ <-. reflexivity. Qed.
Lemma clock_set_stats st : moves clock (fun x => x) (set_stats st).
Proof. intros s r s' H. injection H as _ <-. reflexivity. Qed.
Lemma clock_get_stats : moves clock (fun x => x) get_stats.
Proof. intros s r s' H. injection H as _ <-. reflexivity. Qed.
Lemma clock_emit e : moves clock (fun x => x) (emit e).
Proof. intros s r s' H. injection H as _ <-. reflexivity. Qed.
Lemma clock_get_fs : moves clock (fun x => x) get_fs.
Proof. intros s r s' H. injection H as _ <-. reflexivity. Qed.
Lemma clock_put_fs m : moves clock (fun x => x) (put_fs m).
Proof. intros s r s' H. injection H as _ <-. reflexivity. Qed.
Lemma clock_read_now env : moves clock S (read_now env).
Proof. intros s r s' H. injection H as _ <-. reflexivity. Qed.

Lemma log_bump k n : moves fetch_log (fun x => x) (bump k n).
Proof. intros s r s' H. injection H as _ <-. reflexivity. Qed.
Lemma log_set_stats st : moves fetch_log (fun x => x) (set_stats st).
Proof. intros s r s' H. injection H as _ <-. reflexivity. Qed.
Lemma log_get_stats : moves fetch_log (fun x => x) get_stats.
Proof. intros s r s' H. injection H as _ <-. reflexivity. Qed.
Lemma log_get_fs : moves fetch_log (fun x => x) get_fs.
Proof. intros s r s' H. injection H as _ <-. reflexivity. Qed.
Lemma log_put_fs m : moves fetch_log (fun x => x) (put_fs m).
Proof. intros s r s' H. injection H as _ <-. reflexivity. Qed.
Lemma log_read_now env : moves fetch_log (fun x => x) (read_now env).
Proof. intros s r s' H. injection H as _ <-. reflexivity. Qed.
Lemma log_emit_template : moves fetch_log (fun x => x) (emit ETemplate).
Proof.
    intros s r s' H. injection H as _ <-. unfold fetch_log, fetched. simpl.
    rewrite flat_map_app. simpl. apply app_nil_r.
Qed.
Lemma log_emit_engine p : moves fetch_log (fun x => x) (emit (EEngine p)).
Proof.
    intros s r s' H. injection H as _ <-. unfold fetch_log, fetched. simpl.
    rewrite flat_map_app. simpl. apply app_nil_r.
Qed.
Lemma log_emit_fetch u : moves fetch_log (fun l => l ++ [u]) (emit (EFetch u)).
Proof.
    intros s r s' H. injection H as _ <-. unfold fetch_log, fetched. simpl.
    rewrite flat_map_app. reflexivity.
Qed.

Create HintDb pm_moves.
Hint Resolve moves_ret moves_raise
       clock_bump clock_set_stats clock_get_stats clock_emit clock_get_fs clock_put_fs
       log_bump log_set_stats log_get_stats log_get_fs log_put_fs log_read_now
       log_emit_template log_emit_engine : pm_moves.

  (** Decompose a computation into primitive steps. *)
Ltac moves_tac :=
    repeat match goal with
    | |- moves _ _ (pbind _ _) => apply moves_bind; [|intros ?; cbv beta]
    | |- moves _ _ (try_except _ _) => apply moves_try
    | |- moves _ _ (match ?x with _ => _ end) => destruct x
    | |- _ => solve [eauto with pm_moves]
    end.

Section WithEnv.
Context (env : Env).

Lemma clock_generate_pdf ed d ft : moves clock (fun x => x) (generate_pdf env ed d ft).
Proof. unfold generate_pdf, write_pdf, mkdir_exist_ok, path_exists. moves_tac. Qed.

Lemma log_generate_pdf ed d ft : moves fetch_log (fun x => x) (generate_pdf env ed d ft).
Proof. unfold generate_pdf, write_pdf, mkdir_exist_ok, path_exists. moves_tac. Qed.

Lemma clock_extract e ft : moves clock (fun x => x) (extract_entry_data env e ft).
Proof. unfold extract_entry_data. moves_tac. Qed.

Lemma log_extract e ft : moves fetch_log (fun x => x) (extract_entry_data env e ft).
Proof. unfold extract_entry_data. moves_tac. Qed.

Lemma clock_record acc r : moves clock (fun x => x) (record_pdf_result acc r).
Proof. unfold record_pdf_result. moves_tac. Qed.

Lemma log_record acc r : moves fetch_log (fun x => x) (record_pdf_result acc r).
Proof. unfold record_pdf_result. moves_tac. Qed.

Lemma clock_is_entry_recent e : moves clock S (is_entry_recent env e).
Proof. unfold is_entry_recent. apply moves_bind; [apply clock_read_now|]. intros; moves_tac. Qed.

Lemma log_is_entry_recent e : moves fetch_log (fun x => x) (is_entry_recent env e).
Proof. unfold is_entry_recent. moves_tac. Qed.

Hint Resolve clock_generate_pdf log_generate_pdf clock_extract log_extract
         clock_record log_record clock_is_entry_recent log_is_entry_recent : pm_moves.

Lemma clock_process_entry ft acc e : moves clock S (process_entry env ft acc e).
Proof.
      unfold process_entry, process_entry_body. apply moves_try; [|moves_tac].
      apply moves_bind; [apply clock_is_entry_recent|]. intros; moves_tac.
Qed.

Lemma log_process_entry ft acc e : moves fetch_log (fun x => x) (process_entry env ft acc e).
Proof. unfold process_entry, process_entry_body. moves_tac. Qed.

Lemma process_entry_never_raises ft acc e : never_raises (process_entry env ft acc e).
Proof. apply never_raises_try, never_raises_bump_ret. Qed.

    (** Every entry of the list is classified, once, in order. *)
Lemma process_entries_run ft acc es s :
      exists r s', process_entries env ft acc es s = (Ok r, s') /\
        clock s' = (clock s + length es)%nat /\ fetch_log s' = fetch_log s.
Proof.
      revert acc s. induction es as [|e rest IH]; intros acc s; simpl.
      - eexists _, _. split; [reflexivity|]. split; [lia|reflexivity].
      - unfold pbind at 1.
        destruct (process_entry_never_raises ft acc e s) as [a [s1 E]]. rewrite E.
        destruct (IH a s1) as [r [s' [H1 [H2 H3]]]].
        exists r, s'. split; [exact H1|].
        rewrite H2, (clock_process_entry _ _ _ _ _ _ E),
                H3, (log_process_entry _ _ _ _ _ _ E).
        split; [lia|reflexivity].
Qed.

Lemma log_process_entries ft acc es :
      moves fetch_log (fun x => x) (process_entries env ft acc es).
Proof.
      intros s r s' H. destruct (process_entries_run ft acc es s) as [r' [s'' [E [_ L]]]].
      rewrite E in H. injection H as _ <-. exact L.
Qed.

Hint Resolve log_process_entries : pm_moves.

Lemma log_process_feed u : moves fetch_log (fun l => l ++ [u]) (process_feed env u).
Proof.
      unfold process_feed. apply moves_bind; [apply log_emit_fetch|]. intros; moves_tac.
Qed.

Lemma log_process_one_feed acc u : moves fetch_log (fun l => l ++ [u]) (process_one_feed env acc u).
Proof.
      unfold process_one_feed. apply moves_try; [|moves_tac].
      apply moves_bind; [apply log_process_feed|]. intros; moves_tac.
Qed.

Lemma process_one_feed_never_raises acc u : never_raises (process_one_feed env acc u).
Proof. apply never_raises_try, never_raises_bump_ret. Qed.

    (** Every feed of the list is fetched, once, in order. *)
Lemma process_feeds_run acc feeds s :
      exists r s', process_feeds env acc feeds s = (Ok r, s') /\
        fetch_log s' = fetch_log s ++ feeds.
Proof.
      revert acc s. induction feeds as [|u rest IH]; intros acc s; simpl.
      - eexists _, _. split; [reflexivity|]. symmetry. apply app_nil_r.
      - unfold pbind at 1.
        destruct (process_one_feed_never_raises acc u s) as [a [s1 E]]. rewrite E.
        destruct (IH a s1) as [r [s' [H1 H2]]].
        exists r, s'. split; [exact H1|].
        rewrite H2, (log_process_one_feed _ _ _ _ _ E), <- app_assoc. reflexivity.
Qed.

Lemma output_path_join ed d ft :
      output_path env ed d ft = output_feed_path env ft ++
        [Config.get_output_filename (uni env) (entry_title ed) ft d].
Proof.
      unfold output_path, path_join, Config.get_output_filename.
      destruct (strftime_mdy d); reflexivity.
Qed.

Lemma output_path_ne ed d ft : output_path env ed d ft <> output_feed_path env ft.
Proof.
      rewrite output_path_join. intros H.
      apply (f_equal (@length _)) in H. rewrite length_app in H. simpl in H. lia.
Qed.


    (** A path returned by [generate_pdf] is the output path, its feed
        directory is a directory and the file is present afterwards. *)
Lemma generate_pdf_leaves_file ed d ft s p b s' :
      generate_pdf env ed d ft s = (Ok (Some p, b), s') ->
      p = output_path env ed d ft /\
      fs s' !! output_feed_path env ft = Some Dir /\ is_Some (fs s' !! p).
Proof.
      intros Hgen.
      cbv [generate_pdf mkdir_exist_ok path_exists write_pdf try_except pbind
           emit get_fs put_fs pret praise] in Hgen.
      fold (output_feed_path env ft) in Hgen. fold (output_path env ed d ft) in Hgen.
      pose proof (output_path_ne ed d ft) as Hne.
      repeat (case_match; simpl in *; simplify_eq/=).
      all: split; [reflexivity|].
      all: try match goal with Hb : bool_decide _ = true |- _ =>
                 apply bool_decide_eq_true_1 in Hb end.
      all: repeat first [ rewrite lookup_insert_eq
                        | rewrite lookup_insert_ne by congruence ]; eauto.
      all: match goal with Hs : is_Some (<[_:=_]> _ !! _) |- _ =>
             rewrite lookup_insert_ne in Hs by congruence; eauto end.
Qed.

End WithEnv.
End ProcessorFacts.

(* ------------------------------------------------------------------ *)
(** ** Claims about the Remote Publication Gate *)

Module UploaderClaims.
Import Uploader UploaderSpec UploaderFacts.

  (** C2: every path handed to [upload_pdfs] is counted exactly once
      (uploaded + skipped + failed = number of paths); when the [rmapi]
      availability check or the root-folder check fails, the result is
      0 uploaded, 0 failed, all skipped, and no [rmapi put] is run. *)
Theorem upload_pdfs_counts_every_path {RS} (br : Bridge RS) (folder_name : pystr)
      (pdf_files : list Path) (s : RS * list Cmd) (c : UploadCounts) (s' : RS * list Cmd) :
    upload_pdfs br folder_name pdf_files s = (c, s') ->
    total c = length pdf_files /\
    ((fst (check_rmapi_available br s) = false \/
      fst (ensure_folder_exists br folder_name (snd (check_rmapi_available br s))) = false) ->
     c = fast_fail_counts pdf_files /\
     exists added, snd s' = snd s ++ added /\ Forall (fun c => is_put c = false) added).
Proof.
    unfold upload_pdfs, ubind. intros H.
    destruct (check_rmapi_available br s) as [avail s1] eqn:Ec.
    pose proof (no_put_check br s avail s1 Ec) as [l1 [Hl1 F1]].
    destruct avail; simpl in H |- *.
    - destruct (ensure_folder_exists br folder_name s1) as [ok s2] eqn:Ee.
      pose proof (no_put_find_or_mkdir br folder_name s1 ok s2 Ee) as [l2 [Hl2 F2]].
      destruct ok; simpl in H |- *.
      + apply upload_loop_total in H. split.
        * rewrite H. reflexivity.
        * intros [Hf | Hf]; discriminate.
      + injection H as <- <-. split; [unfold total; simpl; lia|]. intros _.
        split; [reflexivity|]. exists (l1 ++ l2). rewrite Hl2, Hl1, app_assoc.
        split; [reflexivity|]. apply Forall_app; auto.
    - injection H as <- <-. split; [unfold total; simpl; lia|]. intros _.
      split; [reflexivity|]. exists l1. auto.
Qed.

  (** C4: when [rmapi find] reports the derived remote key present, the
      loop of [upload_pdfs] counts the path as skipped after that single
      [find], without any [put]; and [upload_pdf] called on such a path
      returns [True] after the single [find]. *)
Theorem present_remote_key_is_not_uploaded {RS} (br : Bridge RS) (folder_name : pystr)
      (acc : UploadCounts) (pdf_path : Path) (rs : RS) (log : list Cmd) (err : bool) :
    let key := get_remarkable_file_path folder_name pdf_path (feed_subfolder_of pdf_path) in
    run br rs (CFind key) = Completed 0 true err ->
    upload_one br folder_name acc pdf_path (rs, log)
      = (add_skipped acc, (step br rs (CFind key), log ++ [CFind key])) /\
    (forall feed_subfolder rs0 log0 err0,
       let key0 := get_remarkable_file_path folder_name pdf_path feed_subfolder in
       run br rs0 (CFind key0) = Completed 0 true err0 ->
       upload_pdf br folder_name pdf_path feed_subfolder (rs0, log0)
         = (true, (step br rs0 (CFind key0), log0 ++ [CFind key0]))).
Proof.
    intros key Hrun. split.
    - unfold upload_one, ubind, file_exists_in_remarkable, ubind, subprocess_run.
      simpl. fold key. rewrite Hrun. reflexivity.
    - intros sub rs0 log0 err0 key0 Hrun0.
      unfold upload_pdf, ubind, file_exists_in_remarkable, ubind, subprocess_run.
      simpl. fold key0. rewrite Hrun0. reflexivity.
Qed.

End UploaderClaims.

Module UploaderBugs.
Import Uploader UploaderSpec UploaderInputs.

  (** C8: with [Config.OUTPUT_DIR = "/data/pdfs"], a document
      [/data/pdfs/Feed/07-28-2025 A.pdf] gets the remote key
      [AtomFeeds/07-28-2025 A] (no subfolder): [upload_pdfs] compares the
      grandparent segment with the literal ['output'], not with the
      configured output root, whereas the spec's key is
      [AtomFeeds/Feed/07-28-2025 A]. *)
Theorem remote_key_ignores_configured_output_dir :
    get_remarkable_file_path atom_feeds doc_under_data_pdfs
      (feed_subfolder_of doc_under_data_pdfs) = s2p "AtomFeeds/07-28-2025 A" /\
    remote_key_spec data_pdfs atom_feeds doc_under_data_pdfs
      = s2p "AtomFeeds/Feed/07-28-2025 A".
Proof. split; vm_compute; reflexivity. Qed.

End UploaderBugs.

Module UploaderWitnesses.
Import Uploader UploaderSpec UploaderInputs UploaderClaims.

Lemma upload_pdfs_counts_every_path_witness :
    upload_pdfs missing_rmapi atom_feeds [doc_under_data_pdfs] (tt, [])
      = (fast_fail_counts [doc_under_data_pdfs], (tt, [CVersion])) /\
    fast_fail_counts [doc_under_data_pdfs] = fast_fail_counts [doc_under_data_pdfs] /\
    total (fast_fail_counts [doc_under_data_pdfs]) = length [doc_under_data_pdfs].
Proof.
    split; [reflexivity|]. split; [reflexivity|].
    exact (proj1 (upload_pdfs_counts_every_path missing_rmapi atom_feeds
                    [doc_under_data_pdfs] (tt, []) _ _ eq_refl)).
Defined.

Lemma present_remote_key_is_not_uploaded_witness :
    let key := get_remarkable_file_path atom_feeds doc_under_data_pdfs
                 (feed_subfolder_of doc_under_data_pdfs) in
    run full_store tt (CFind key) = Completed 0 true false /\
    upload_one full_store atom_feeds {| uploaded := 0; failed := 0; skipped := 0 |}
      doc_under_data_pdfs (tt, [])
      = (add_skipped {| uploaded := 0; failed := 0; skipped := 0 |},
         (step full_store tt (CFind key), [] ++ [CFind key])).
Proof.
    intros key. split; [reflexivity|].
    exact (proj1 (present_remote_key_is_not_uploaded full_store atom_feeds
                    {| uploaded := 0; failed := 0; skipped := 0 |} doc_under_data_pdfs
                    tt [] false eq_refl)).
Defined.

End UploaderWitnesses.

(* ------------------------------------------------------------------ *)
(** ** Claims about the Feed Run Orchestrator *)

Module ProcessorClaims.
Import Processor ProcessorSpec ProcessorFacts.

  (** C1: failure isolation.  A run of [process_all_feeds] never raises
      and fetches every feed of the list, in order; an exception out of
      [process_feed] for one feed is caught by the loop, which adds one to
      [feeds_failed] and goes on with the accumulated results unchanged; an
      exception out of the [try] block of one entry adds one to
      [pdfs_failed] and the loop goes on; the loop over entries never
      raises and classifies every entry. *)
Theorem process_all_feeds_isolates_failures (env : Env) (feeds : list pystr) (s : PState) :
    (exists st s', process_all_feeds env feeds s = (Ok st, s') /\
                   fetch_log s' = fetch_log s ++ feeds) /\
    (forall acc url s1 s2, process_feed env url s1 = (Raised, s2) ->
       process_one_feed env acc url s1 = (Ok acc, bumped FeedsFailed s2)) /\
    (forall ft acc entry s1 s2, process_entry_body env ft acc entry s1 = (Raised, s2) ->
       process_entry env ft acc entry s1 = (Ok acc, bumped PdfsFailed s2)) /\
    (forall ft acc entries s1, exists r s2,
       process_entries env ft acc entries s1 = (Ok r, s2) /\
       clock s2 = (clock s1 + length entries)%nat).
Proof.
    split; [|split; [|split]].
    - unfold process_all_feeds, pbind. simpl.
      destruct feeds as [|u rest].
      + eexists _, _. split; [reflexivity|]. symmetry. apply app_nil_r.
      + set (s0 := {| stats := zero_stats; fs := fs s; clock := clock s; events := events s |}).
        destruct (process_feeds_run env (0%nat, []) (u :: rest) s0) as [[n gen] [s1 [E L]]].
        rewrite E. destruct gen as [|p ps]; simpl.
        * eexists _, _. split; [reflexivity|]. exact L.
        * eexists _, _. split; [reflexivity|]. exact L.
    - intros acc url s1 s2 H. unfold process_one_feed, try_except, pbind.
      rewrite H. reflexivity.
    - intros ft acc entry s1 s2 H. unfold process_entry, try_except.
      rewrite H. reflexivity.
    - intros ft acc entries s1.
      destruct (process_entries_run env ft acc entries s1) as [r [s2 [E [C _]]]].
      eauto.
Qed.





  (** C7 (as amended): every call of [is_entry_recent] computes its own
      cutoff, [now - RECENT_HOURS], from the clock reading taken at that
      call, and takes one reading; the loop over entries takes one reading
      per entry, so the k-th entry of a feed is compared with the k-th
      reading of the run's clock. *)
Theorem is_entry_recent_reads_clock_per_call (env : Env) (e : FeedEntry) (s : PState) :
    (forall b ts, fst (is_entry_recent env e s) = Ok (b, Some ts) ->
       b = Z.ltb (Config.get_cutoff_time (recent_hours env) (now_at env (clock s))) ts) /\
    clock (snd (is_entry_recent env e s)) = S (clock s) /\
    (forall ft acc es s0, exists r s1,
       process_entries env ft acc es s0 = (Ok r, s1) /\
       clock s1 = (clock s0 + length es)%nat).
Proof.
    split; [|split].
    - intros b ts H.
      cbv [is_entry_recent read_now pbind pret praise] in H. simpl in H.
      destruct (from_struct (e_published_parsed e)) eqn:E1;
        [|destruct (e_published e); [destruct (date_parse env p)|]];
        simpl in H; try discriminate;
        repeat match type of H with
               | context [match ?x with _ => _ end] => destruct x; simpl in H
               end;
        congruence.
    - destruct (is_entry_recent env e s) as [r s'] eqn:E. simpl.
      exact (clock_is_entry_recent env e s r s' E).
    - intros ft acc es s0.
      destruct (process_entries_run env ft acc es s0) as [r [s1 [E [C _]]]]. eauto.
Qed.

End ProcessorClaims.

Module ProcessorBugs.
Import Processor ProcessorSpec Inputs.

  (** C5: when [date_parser.parse(entry.published)] raises an exception
      other than [ValueError] or [TypeError] (dateutil raises
      [OverflowError] for a year beyond the C integer range), that
      exception escapes [is_entry_recent] instead of giving
      [(False, None)] or falling back to [updated_parsed]; [process_feed]
      then counts the entry in [pdfs_failed]. *)
Theorem is_entry_recent_lets_parser_overflow_escape (env : Env) (text : pystr)
      (updated : option (option Z)) (s : PState) :
    date_parse env text = ParseRaises ->
    fst (is_entry_recent env (text_dated_entry text updated) s) = Raised /\
    (forall ft acc,
       process_entry env ft acc (text_dated_entry text updated) s
       = (Ok acc, bumped PdfsFailed (snd (is_entry_recent env (text_dated_entry text updated) s)))).
Proof.
    intros Hp. split.
    - cbv [is_entry_recent read_now pbind pret praise text_dated_entry]. simpl.
      rewrite Hp. reflexivity.
    - intros ft acc.
      cbv [process_entry process_entry_body try_except is_entry_recent read_now
           pbind pret praise text_dated_entry]. simpl.
      rewrite Hp. reflexivity.
Qed.

End ProcessorBugs.

Module ProcessorCounterexamples.
Import Processor ProcessorSpec Inputs.



  (** C7 fails as stated: two entries with the same publication time in
      one feed are classified differently, since the clock advanced one
      second between the two cutoff computations (the two cutoffs differ). *)
Lemma same_timestamp_classified_differently :
    let s1 := snd (is_entry_recent env_ticking edge_entry st0) in
    fst (is_entry_recent env_ticking edge_entry st0) = Ok (true, Some edge_ts) /\
    fst (is_entry_recent env_ticking edge_entry s1) = Ok (false, Some edge_ts) /\
    Config.get_cutoff_time 24 (now_at env_ticking (clock st0))
      <> Config.get_cutoff_time 24 (now_at env_ticking (clock s1)) /\
    entries_recent (stats (snd (process_entries env_ticking my_feed (0%nat, [])
                                  [edge_entry; edge_entry] st0))) = 1%nat.
Proof. vm_compute. repeat split; discriminate. Qed.


End ProcessorCounterexamples.

Module ProcessorWitnesses.
Import Processor ProcessorSpec Inputs ProcessorClaims ProcessorBugs.


Lemma is_entry_recent_lets_parser_overflow_escape_witness :
    date_parse env_ok overflow_text = ParseRaises /\
    fst (is_entry_recent env_ok (text_dated_entry overflow_text None) st0) = Raised.
Proof.
    assert (Hp : date_parse env_ok overflow_text = ParseRaises) by (vm_compute; reflexivity).
    split; [exact Hp|].
    exact (proj1 (is_entry_recent_lets_parser_overflow_escape env_ok overflow_text None st0 Hp)).
Defined.


End ProcessorWitnesses.
Example filename_test :
  Config.get_output_filename ascii_unicode (s2p "Article: A & B!") (s2p "Feed")
    (1753660800 * 1000000) = s2p "07-28-2025 Article A  B.pdf".
Proof. vm_compute. reflexivity. Qed.

Example stem_test : path_stem [s2p "output"; s2p "F"; s2p "a.b.pdf"] = s2p "a.b".
Proof. vm_compute. reflexivity. Qed.

(* ------------------------------------------------------------------ *)
(** ** Further lemmas *)

Module StrFacts.

Lemma startswith_app s p : PyStr.startswith s p = true -> s = p ++ drop (length p) s.
Proof.
  revert s. induction p as [|c p IH]; intros [|d r] H; simpl in *; try discriminate; auto.
  apply andb_prop in H as [H1 H2]. apply Z.eqb_eq in H1. subst. f_equal. auto.
Qed.

Lemma replace_aux_self f s old : PyStr.replace_aux f s old old = s.
Proof.
  revert s. induction f as [|f IH]; intros [|c r]; cbn [PyStr.replace_aux]; auto.
  destruct (PyStr.startswith (c :: r) old) eqn:E.
  - rewrite IH. symmetry. apply startswith_app. exact E.
  - rewrite IH. reflexivity.
Qed.

Lemma replace_self s old : old <> [] -> PyStr.replace s old old = s.
Proof. intros H. destruct old as [|c o]; [congruence|]. apply replace_aux_self. Qed.

Lemma replace_aux_absent f s old new :
  (forall i, PyStr.startswith (drop i s) old = false) -> PyStr.replace_aux f s old new = s.
Proof.
  revert s. induction f as [|f IH]; intros [|c r] H; cbn [PyStr.replace_aux]; auto.
  rewrite (H 0%nat : PyStr.startswith (c :: r) old = false). f_equal. apply IH. intros i. exact (H (S i)).
Qed.

Lemma replace_absent s old new : old <> [] ->
  (forall i, PyStr.startswith (drop i s) old = false) -> PyStr.replace s old new = s.
Proof. intros Hne H. destruct old as [|c o]; [congruence|]. apply replace_aux_absent, H. Qed.

End StrFacts.

Module StripFacts.
Import StripSpec.
Section U.
Context (u : PyUnicode).

Lemma lstrip_cons c r : lstrip u (c :: r) = if py_isspace u c then lstrip u r else c :: r.
Proof. reflexivity. Qed.

Lemma lstrip_head s : head_not_space u (lstrip u s).
Proof.
  induction s as [|c r IH]; [exact I|]. rewrite lstrip_cons.
  destruct (py_isspace u c) eqn:E; [exact IH|exact E].
Qed.

Lemma lstrip_noop s : head_not_space u s -> lstrip u s = s.
Proof. destruct s as [|c r]; [reflexivity|]. intros H. simpl in H. rewrite lstrip_cons, H. reflexivity. Qed.

Lemma lstrip_suffix s : exists p, s = p ++ lstrip u s.
Proof.
  induction s as [|c r [p Hp]]; [exists []; reflexivity|]. rewrite lstrip_cons.
  destruct (py_isspace u c); [exists (c :: p); simpl; congruence | exists []; reflexivity].
Qed.

Lemma lstrip_all_space s : (forall c, In c s -> py_isspace u c = true) -> lstrip u s = [].
Proof.
  induction s as [|c r IH]; intros H; [reflexivity|]. rewrite lstrip_cons, (H c (or_introl eq_refl)).
  apply IH. intros d Hd. apply H. right. exact Hd.
Qed.

Lemma strip_idem s : strip u (strip u s) = strip u s.
Proof.
  unfold strip.
  set (x := lstrip u s). set (y := lstrip u (rev x)).
  assert (Hy : lstrip u (rev y) = rev y).
  { apply lstrip_noop. destruct (lstrip_suffix (rev x)) as [p Hp]. fold y in Hp.
    destruct (rev y) as [|d t] eqn:Ery; [exact I|]. simpl.
    assert (Hx : x = d :: t ++ rev p).
    { rewrite <- (rev_involutive x), Hp, rev_app_distr, Ery. reflexivity. }
    pose proof (lstrip_head s) as Hh. fold x in Hh. rewrite Hx in Hh. exact Hh. }
  rewrite Hy, rev_involutive.
  assert (Hyy : lstrip u y = y) by (apply lstrip_noop, lstrip_head).
  rewrite Hyy. reflexivity.
Qed.

Lemma strip_all_space s : (forall c, In c s -> py_isspace u c = true) -> strip u s = [].
Proof. intros H. unfold strip. rewrite (lstrip_all_space s H). reflexivity. Qed.

End U.
End StripFacts.

Module StartupFacts.
Import Startup.

Ltac key_ne := let H := fresh in intros H; vm_compute in H; congruence.


Lemma override_str_other o k k' ns : s2p k' <> s2p k -> override_str o k ns !! s2p k' = ns !! s2p k'.
Proof. intros H. unfold override_str. repeat case_match; try reflexivity. apply lookup_insert_ne. congruence. Qed.


Lemma setup_directories_frame {W} (os : OS W) ns w ns' w' :
  setup_directories os ns w = (Processor.Ok ns', w') ->
  (forall k, k <> s2p "TEMPLATE_DIR" -> k <> s2p "CSS_FILE" -> ns' !! k = ns !! k) /\
  (ns' = ns \/ exists d, ns' !! s2p "TEMPLATE_DIR" = Some (VStr d) /\ os_exists os w' d = true /\
                 ns' !! s2p "CSS_FILE" = Some (VStr (os_path_join d (s2p "style.css")))) /\
  (forall d, getattr_str ns "TEMPLATE_DIR" = Some d -> os_exists os w' d = true -> ns' = ns).
Proof.
  unfold setup_directories. intros H.
  repeat (case_match; simplify_eq).
  all: try (split; [reflexivity|]; split; [left; reflexivity|]; intros; reflexivity).
  - (* candidate found *)
    match goal with Hf : List.find _ _ = Some ?p |- _ => pose proof (find_some _ _ Hf) as [_ Hex] end.
    split; [|split].
    + intros k Hk1 Hk2. rewrite !lookup_insert_ne by congruence. reflexivity.
    + right. eexists. split; [rewrite lookup_insert_ne by key_ne; apply lookup_insert_eq|].
      split; [exact Hex|]. apply lookup_insert_eq.
    + intros d Hd Hdx. congruence.
Qed.


End StartupFacts.

Module ProcessorStatsFacts.
Import Processor ProcessorSpec ProcessorStatsSpec ProcessorFacts.

Lemma stats_bump k n s : stats (snd (bump k n s)) = bump_stats k n (stats s).
Proof. reflexivity. Qed.

Lemma clock_stats_id_emit e : moves stats (fun x => x) (emit e).
Proof. intros s r s' H. injection H as _ <-. reflexivity. Qed.
Lemma stats_get_fs : moves stats (fun x => x) get_fs.
Proof. intros s r s' H. injection H as _ <-. reflexivity. Qed.
Lemma stats_put_fs m : moves stats (fun x => x) (put_fs m).
Proof. intros s r s' H. injection H as _ <-. reflexivity. Qed.
Lemma stats_read_now env : moves stats (fun x => x) (read_now env).
Proof. intros s r s' H. injection H as _ <-. reflexivity. Qed.

Create HintDb pm_stats.
Hint Resolve moves_ret moves_raise clock_stats_id_emit stats_get_fs stats_put_fs
       stats_read_now : pm_stats.

Ltac stats_tac :=
    repeat match goal with
    | |- moves _ _ (pbind _ _) => apply moves_bind; [|intros ?; cbv beta]
    | |- moves _ _ (try_except _ _) => apply moves_try
    | |- moves _ _ (match ?x with _ => _ end) => destruct x
    | |- _ => solve [eauto with pm_stats]
    end.

Lemma fs_grows_refl s : fs_grows s s.
Proof. intros q H. exact H. Qed.

Lemma fs_grows_trans s1 s2 s3 : fs_grows s1 s2 -> fs_grows s2 s3 -> fs_grows s1 s3.
Proof. intros H1 H2 q H. auto. Qed.

Lemma fs_grows_same s s' : fs s' = fs s -> fs_grows s s'.
Proof. intros E q H. rewrite E. exact H. Qed.

Section WithEnv.
Context (env : Env).

Lemma stats_is_entry_recent e : moves stats (fun x => x) (is_entry_recent env e).
Proof. unfold is_entry_recent. stats_tac. Qed.

Lemma stats_extract e ft : moves stats (fun x => x) (extract_entry_data env e ft).
Proof. unfold extract_entry_data. stats_tac. Qed.

Lemma stats_generate_pdf ed d ft : moves stats (fun x => x) (generate_pdf env ed d ft).
Proof. unfold generate_pdf, write_pdf, mkdir_exist_ok, path_exists. stats_tac. Qed.

Lemma fs_read_now : moves fs (fun x => x) (read_now env).
Proof. intros s r s' H. injection H as _ <-. reflexivity. Qed.

Lemma fs_is_entry_recent e : moves fs (fun x => x) (is_entry_recent env e).
Proof.
  unfold is_entry_recent. apply moves_bind; [apply fs_read_now|]. intros.
  repeat match goal with
  | |- moves _ _ (pbind _ _) => apply moves_bind; [|intros ?; cbv beta]
  | |- moves _ _ (match ?x with _ => _ end) => destruct x
  | |- _ => solve [eauto using moves_ret, moves_raise]
  end.
Qed.

Lemma fs_extract e ft : moves fs (fun x => x) (extract_entry_data env e ft).
Proof.
  unfold extract_entry_data.
  repeat match goal with
  | |- moves _ _ (pbind _ _) => apply moves_bind; [|intros ?; cbv beta]
  | |- moves _ _ (match ?x with _ => _ end) => destruct x
  | |- _ => solve [eauto using moves_ret, moves_raise]
  end.
Qed.

Lemma generate_pdf_grows ed d ft s r s' :
  generate_pdf env ed d ft s = (r, s') -> fs_grows s s'.
Proof.
  intros Hgen.
  cbv [generate_pdf mkdir_exist_ok path_exists write_pdf try_except pbind
       emit get_fs put_fs pret praise] in Hgen.
  repeat (case_match; simpl in *; simplify_eq/=); try apply fs_grows_refl.
  all: intros q Hq; simpl.
  all: repeat match goal with
       | |- is_Some (<[?p:=_]> _ !! ?q) =>
           destruct (decide (p = q)) as [->|?];
           [rewrite lookup_insert_eq; eauto | rewrite lookup_insert_ne by congruence]
       end; exact Hq.
Qed.

Lemma generate_pdf_never_raises ed d ft : never_raises (generate_pdf env ed d ft).
Proof.
  unfold generate_pdf. apply never_raises_try. intros s. eexists _, _. reflexivity.
Qed.

Lemma is_entry_recent_true e s pd s' :
  is_entry_recent env e s = (Ok (true, pd), s') -> exists d, pd = Some d.
Proof.
  unfold is_entry_recent, pbind, read_now, pret, praise. intros H.
  repeat (case_match; simplify_eq/=); eauto.
Qed.

Lemma process_entry_delta ft acc e s r s' :
  process_entry env ft acc e s = (Ok r, s') -> pdf_delta 1 s acc r s' /\
  feeds_processed (stats s') = feeds_processed (stats s) /\
  feeds_failed (stats s') = feeds_failed (stats s) /\
  entries_found (stats s') = entries_found (stats s).
Proof.
  unfold process_entry, try_except. intros H.
  destruct (process_entry_body env ft acc e s) as [[r1|] s1] eqn:E;
  unfold process_entry_body, pbind in E;
  destruct (is_entry_recent env e s) as [[[isr pd]|] s2] eqn:E2;
  pose proof (stats_is_entry_recent e _ _ _ E2) as S2;
  pose proof (fs_is_entry_recent e _ _ _ E2) as F2.
  - (* body returned *)
    injection H as <- <-. destruct isr; simpl in E.
    + destruct (is_entry_recent_true _ _ _ _ E2) as [d ->].
      match type of E with context [extract_entry_data env e ft ?x] =>
        destruct (extract_entry_data env e ft x) as [[ed|] s3] eqn:E3 end;
        [|simpl in E; discriminate].
      pose proof (stats_extract _ _ _ _ _ E3) as S3.
      pose proof (fs_extract _ _ _ _ _ E3) as F3.
      destruct (generate_pdf_never_raises ed d ft s3) as [res [s4 E4]]. rewrite E4 in E.
      pose proof (stats_generate_pdf _ _ _ _ _ _ E4) as S4.
      pose proof (generate_pdf_grows _ _ _ _ _ _ E4) as G4.
      destruct acc as [cnt paths].
      unfold record_pdf_result, pbind, bump, pret in E.
      destruct res as [[p|] was].
      * pose proof (generate_pdf_leaves_file env _ _ _ _ _ _ _ E4) as [_ [_ Hp]].
        injection E as <- <-. simpl in *.
        split; [|rewrite S4, S3; simpl; rewrite S2; destruct was; auto].
        exists 1%nat, 1%nat, 1%nat, [p].
        unfold pall, pgps, remote_counts. simpl. rewrite ?S4, ?S3. simpl. rewrite ?S2.
        destruct was; simpl; (split; [lia|]); (split; [lia|]);
          repeat split; try lia; try reflexivity.
        all: try (apply fs_grows_trans with s4; [|apply fs_grows_same; reflexivity]).
        all: try (apply fs_grows_trans with s3; [|exact G4]).
        all: try (apply fs_grows_same; simpl; rewrite F3; simpl; rewrite F2; reflexivity).
        all: constructor; [exact Hp | constructor].
      * injection E as <- <-. simpl in *.
        split; [|rewrite S4, S3; simpl; rewrite S2; auto].
        exists 0%nat, 1%nat, 1%nat, [].
        unfold pall, pgps, remote_counts. simpl. rewrite ?S4, ?S3. simpl. rewrite ?S2.
        repeat split; try lia; try (rewrite app_nil_r; reflexivity); try constructor.
        apply fs_grows_trans with s4; [|apply fs_grows_same; reflexivity].
        apply fs_grows_trans with s3; [|exact G4].
        apply fs_grows_same; simpl; rewrite F3; simpl; rewrite F2; reflexivity.
    + injection E as <- <-. rewrite S2. split; [|auto].
      exists 0%nat, 0%nat, 0%nat, [].
      rewrite S2. repeat split; try lia; try (rewrite app_nil_r; reflexivity); try constructor.
      apply fs_grows_same; exact F2.
  - discriminate.
  - (* body raised after classification *)
    destruct isr; simpl in E.
    + destruct (is_entry_recent_true _ _ _ _ E2) as [d ->].
      match type of E with context [extract_entry_data env e ft ?x] =>
        destruct (extract_entry_data env e ft x) as [[ed|] s3] eqn:E3 end.
      * destruct (generate_pdf_never_raises ed d ft s3) as [res [s4 E4]]. rewrite E4 in E.
        destruct acc as [cnt paths]. unfold record_pdf_result, pbind, bump, pret in E.
        destruct res as [[p|] was]; discriminate.
      * injection E as <-.
        pose proof (stats_extract _ _ _ _ _ E3) as S3.
        pose proof (fs_extract _ _ _ _ _ E3) as F3.
        unfold pbind, bump, pret in H. injection H as <- <-. simpl.
        rewrite S3. simpl. rewrite S2. split; [|auto].
        exists 0%nat, 1%nat, 1%nat, [].
        unfold pall, pgps, remote_counts. simpl. rewrite ?S3. simpl. rewrite ?S2.
        repeat split; try lia; try (rewrite app_nil_r; reflexivity); try constructor.
        apply fs_grows_same; simpl; rewrite F3; simpl; rewrite F2; reflexivity.
    + discriminate.
  - (* classification raised *)
    injection E as <-.
    unfold pbind, bump, pret in H. injection H as <- <-. simpl.
    rewrite S2. split; [|auto].
    exists 0%nat, 0%nat, 1%nat, [].
    unfold pall, pgps, remote_counts. simpl. rewrite ?S2.
    repeat split; try lia; try (rewrite app_nil_r; reflexivity); try constructor.
    apply fs_grows_same; simpl; exact F2.
Qed.

Lemma pdf_delta_refl s acc : pdf_delta 0 s acc acc s.
Proof.
  exists 0%nat, 0%nat, 0%nat, [].
  repeat split; try lia; try (rewrite app_nil_r; reflexivity); try constructor.
  apply fs_grows_refl.
Qed.

Lemma pdf_delta_trans n m s acc r1 s1 r2 s2 :
  pdf_delta n s acc r1 s1 -> pdf_delta m s1 r1 r2 s2 -> pdf_delta (n + m) s acc r2 s2.
Proof.
  intros (a1 & b1 & c1 & new1 & Hab1 & Hc1 & P1 & E1 & A1 & R1 & L1 & G1 & F1 & K1)
         (a2 & b2 & c2 & new2 & Hab2 & Hc2 & P2 & E2 & A2 & R2 & L2 & G2 & F2 & K2).
  exists (a1 + a2)%nat, (b1 + b2)%nat, (c1 + c2)%nat, (new1 ++ new2).
  repeat split; try lia.
  - rewrite R2, R1, app_assoc. reflexivity.
  - rewrite length_app. lia.
  - eapply fs_grows_trans; eauto.
  - apply Forall_app. split; [|exact F2].
    eapply Forall_impl; [exact F1|]. intros q Hq. apply G2. exact Hq.
  - congruence.
Qed.

Lemma pdf_delta_weaken n m s acc r s' : (n <= m)%nat -> pdf_delta n s acc r s' -> pdf_delta m s acc r s'.
Proof.
  intros Hnm (a & b & c & new & Hab & Hc & rest). exists a, b, c, new. split; [exact Hab|]. split; [lia|exact rest].
Qed.

Lemma process_entries_delta ft acc es s r s' :
  process_entries env ft acc es s = (Ok r, s') -> pdf_delta (length es) s acc r s' /\
  feeds_processed (stats s') = feeds_processed (stats s) /\
  feeds_failed (stats s') = feeds_failed (stats s) /\
  entries_found (stats s') = entries_found (stats s).
Proof.
  revert acc s. induction es as [|e rest IH]; intros acc s H; simpl in H.
  - injection H as <- <-. split; [apply pdf_delta_refl|auto].
  - unfold pbind at 1 in H.
    destruct (process_entry env ft acc e s) as [[a|] s1] eqn:E; [|discriminate].
    destruct (process_entry_delta _ _ _ _ _ _ E) as [D1 (P1 & F1 & N1)].
    destruct (IH _ _ H) as [D2 (P2 & F2 & N2)].
    split; [|repeat split; congruence].
    change (length (e :: rest)) with (1 + length rest)%nat.
    eapply pdf_delta_trans; eauto.
Qed.

Lemma process_feed_delta u s r s' :
  process_feed env u s = (Ok r, s') ->
  exists dfp dff def,
    feeds_processed (stats s') = (feeds_processed (stats s) + dfp)%nat /\
    feeds_failed (stats s') = (feeds_failed (stats s) + dff)%nat /\
    entries_found (stats s') = (entries_found (stats s) + def)%nat /\
    (dfp + dff = 1)%nat /\ pdf_delta def s (0%nat, []) r s'.
Proof.
  unfold process_feed, pbind, emit, bump, pret, praise. intros H.
  destruct (fetch_feed env u) as [feed|]; simpl in H.
  - destruct (pf_meta_ok feed); simpl in H; [|discriminate].
    match type of H with context [process_entries env ?ft ?acc ?es ?x] =>
      destruct (process_entries env ft acc es x) as [[a|] s1] eqn:E end; [|discriminate].
    injection H as <- <-.
    destruct (process_entries_delta _ _ _ _ _ _ E) as [D (P & F & N)]. simpl in P, F, N.
    exists 1%nat, 0%nat, (length (pf_entries feed)).
    rewrite P, F, N. repeat split; try lia.
    eapply (pdf_delta_trans 0); [|exact D].
    exists 0%nat, 0%nat, 0%nat, []. unfold pall, pgps, remote_counts. simpl.
    repeat split; try lia; try constructor. apply fs_grows_same. reflexivity.
  - injection H as <- <-. exists 0%nat, 1%nat, 0%nat. simpl. repeat split; try lia.
    exists 0%nat, 0%nat, 0%nat, []. unfold pall, pgps, remote_counts. simpl.
    repeat split; try lia; try constructor. apply fs_grows_same. reflexivity.
Qed.

Lemma process_feed_raised u s s' :
  process_feed env u s = (Raised, s') ->
  feeds_processed (stats s') = S (feeds_processed (stats s)) /\
  feeds_failed (stats s') = feeds_failed (stats s) /\
  entries_found (stats s') = entries_found (stats s) /\
  pdf_delta 0 s (0%nat, []) (0%nat, []) s'.
Proof.
  unfold process_feed, pbind, emit, bump, pret, praise. intros H.
  destruct (fetch_feed env u) as [feed|]; simpl in H; [|discriminate].
  destruct (pf_meta_ok feed); simpl in H.
  - match type of H with context [process_entries env ?ft ?acc ?es ?x] =>
      destruct (process_entries env ft acc es x) as [[a|] s1] eqn:E end.
    + discriminate.
    + match type of E with process_entries env ?ft ?acc ?es ?x = _ =>
        destruct (process_entries_run env ft acc es x) as (r' & s'' & E' & _) end.
      rewrite E' in E. discriminate.
  - injection H as <-. simpl. repeat split; try lia.
    exists 0%nat, 0%nat, 0%nat, []. unfold pall, pgps, remote_counts. simpl.
    repeat split; try lia; try constructor. apply fs_grows_same. reflexivity.
Qed.

Lemma process_one_feed_delta acc u s r s' :
  process_one_feed env acc u s = (Ok r, s') ->
  exists dfp dff def,
    feeds_processed (stats s') = (feeds_processed (stats s) + dfp)%nat /\
    feeds_failed (stats s') = (feeds_failed (stats s) + dff)%nat /\
    entries_found (stats s') = (entries_found (stats s) + def)%nat /\
    (1 <= dfp + dff)%nat /\ (dfp <= 1)%nat /\ (dff <= 1)%nat /\ pdf_delta def s acc r s'.
Proof.
  unfold process_one_feed, try_except, pbind. intros H.
  destruct (process_feed env u s) as [[[cnt pdfs]|] s1] eqn:E.
  - injection H as <- <-.
    destruct (process_feed_delta _ _ _ _ E) as (dfp & dff & def & P & F & N & Hs & D).
    exists dfp, dff, def. repeat split; try lia; try assumption.
    destruct D as (a & b & c & new & Hab & Hc & P' & E' & A' & R' & L' & G' & F' & K').
    exists a, b, c, new. repeat split; try assumption; try lia.
    simpl in R' |- *. rewrite R'. reflexivity.
  - destruct (process_feed_raised _ _ _ E) as (P & F & N & D).
    unfold bump, pret in H. injection H as <- <-. simpl.
    exists 1%nat, 1%nat, 0%nat. repeat split; try lia.
    destruct D as (a & b & c & new & Hab & Hc & P' & E' & A' & R' & L' & G' & F' & K').
    exists a, b, c, new. unfold pall, pgps, remote_counts in *. simpl in *.
    repeat split; try lia; try congruence.
    + subst new. rewrite app_nil_r. reflexivity.
    + intros q Hq. apply G'. exact Hq.
    + eapply Forall_impl; [exact F'|]. intros q Hq. exact Hq.
Qed.

Lemma process_feeds_delta acc feeds s r s' :
  process_feeds env acc feeds s = (Ok r, s') ->
  exists dfp dff def,
    feeds_processed (stats s') = (feeds_processed (stats s) + dfp)%nat /\
    feeds_failed (stats s') = (feeds_failed (stats s) + dff)%nat /\
    entries_found (stats s') = (entries_found (stats s) + def)%nat /\
    (length feeds <= dfp + dff)%nat /\ (dfp <= length feeds)%nat /\ (dff <= length feeds)%nat /\
    pdf_delta def s acc r s'.
Proof.
  revert acc s. induction feeds as [|u rest IH]; intros acc s H; simpl in H.
  - injection H as <- <-. exists 0%nat, 0%nat, 0%nat.
    simpl; split_and?; try lia. apply pdf_delta_refl.
  - unfold pbind at 1 in H.
    destruct (process_one_feed env acc u s) as [[a|] s1] eqn:E; [|discriminate].
    destruct (process_one_feed_delta _ _ _ _ _ E) as (p1 & f1 & d1 & P1 & F1 & N1 & H1 & H2 & H3 & D1).
    destruct (IH _ _ H) as (p2 & f2 & d2 & P2 & F2 & N2 & H4 & H5 & H6 & D2).
    exists (p1 + p2)%nat, (f1 + f2)%nat, (d1 + d2)%nat. simpl.
    split_and?; try lia.
    eapply pdf_delta_trans; eauto.
Qed.

End WithEnv.
End ProcessorStatsFacts.

Module UploaderKeyFacts.
Import Uploader UploaderSpec UploaderPutSpec UploaderFacts.





Section Puts.
Context {RS : Type} (br : Bridge RS) (folder_name : pystr).

Lemma puts_within_no_put {A} (m : UM RS A) l : no_put m -> puts_within m l.
Proof.
  intros Hm s a s' H. destruct (Hm _ _ _ H) as [added [E F]].
  exists added. split; [exact E|].
  replace (List.filter is_put added) with (@nil Cmd); [apply sublist_nil_l|].
  clear E H. induction F as [|c cs Hc F IH]; simpl; [reflexivity|]. rewrite Hc. exact IH.
Qed.

Lemma puts_within_weaken {A} (m : UM RS A) l l' :
  sublist l l' -> puts_within m l -> puts_within m l'.
Proof.
  intros Hl Hm s a s' H. destruct (Hm _ _ _ H) as [added [E S]].
  exists added. split; [exact E|]. etrans; eauto.
Qed.

Lemma puts_within_bind {A B} (m : UM RS A) (k : A -> UM RS B) l1 l2 :
  puts_within m l1 -> (forall a, puts_within (k a) l2) -> puts_within (ubind m k) (l1 ++ l2).
Proof.
  intros Hm Hk s b s' H. unfold ubind in H.
  destruct (m s) as [a s1] eqn:E1.
  destruct (Hm _ _ _ E1) as [a1 [H1 S1]].
  destruct (Hk _ _ _ _ H) as [a2 [H2 S2]].
  exists (a1 ++ a2). rewrite H2, H1, app_assoc. split; [reflexivity|].
  rewrite List.filter_app. apply sublist_app; assumption.
Qed.

Lemma puts_within_ret {A} (a : A) l : puts_within (RS:=RS) (uret a) l.
Proof. apply puts_within_no_put, no_put_ret. Qed.

Lemma puts_within_put p t : puts_within (put_pdf br p t) [CPut (path_str p) t].
Proof.
  intros [rs log] a s' H. unfold put_pdf, ubind, subprocess_run in H. simpl in H.
  injection H as <- <-. exists [CPut (path_str p) t]. split; [reflexivity|]. simpl.
  reflexivity.
Qed.

Lemma puts_within_bind_l {A B} (m : UM RS A) (k : A -> UM RS B) l :
  no_put m -> (forall a, puts_within (k a) l) -> puts_within (ubind m k) l.
Proof.
  intros Hm Hk. apply (puts_within_bind m k [] l); [apply puts_within_no_put, Hm|exact Hk].
Qed.

Lemma puts_within_bind_r {A B} (m : UM RS A) (k : A -> UM RS B) l :
  puts_within m l -> (forall a, no_put (k a)) -> puts_within (ubind m k) l.
Proof.
  intros Hm Hk. rewrite <- (app_nil_r l).
  apply puts_within_bind; [exact Hm|intros a; apply puts_within_no_put, Hk].
Qed.

Lemma no_put_file_exists p : no_put (file_exists_in_remarkable br p).
Proof.
  unfold file_exists_in_remarkable.
  apply no_put_bind; [apply no_put_run; reflexivity|]. intros; apply no_put_ret.
Qed.

Lemma puts_within_upload_pdf p sub :
  puts_within (upload_pdf br folder_name p sub)
    [CPut (path_str p) (match sub with
                        | Some ((_ :: _) as s) => folder_name ++ [47] ++ s
                        | _ => folder_name
                        end)].
Proof.
  unfold upload_pdf.
  apply puts_within_bind_l; [apply no_put_file_exists|].
  intros present. destruct present; [apply puts_within_ret|].
  destruct sub as [[|c r]|];
    apply puts_within_bind_l; try apply no_put_find_or_mkdir;
    intros ok; destruct ok; simpl; try apply puts_within_ret; try apply puts_within_put.
  apply puts_within_bind_l; [apply no_put_find_or_mkdir|].
  intros ok'. destruct ok'; simpl; [apply puts_within_put|apply puts_within_ret].
Qed.

Lemma puts_within_upload_one acc p :
  puts_within (upload_one br folder_name acc p)
    [CPut (path_str p) (upload_target folder_name p)].
Proof.
  unfold upload_one.
  apply puts_within_bind_l; [apply no_put_file_exists|].
  intros present. destruct present; [apply puts_within_ret|].
  apply puts_within_bind_r; [|intros; apply no_put_ret].
  apply puts_within_upload_pdf.
Qed.

Lemma puts_within_upload_loop acc paths :
  puts_within (upload_loop br folder_name acc paths)
    (map (fun p => CPut (path_str p) (upload_target folder_name p)) paths).
Proof.
  revert acc. induction paths as [|p rest IH]; intros acc; simpl.
  - apply puts_within_ret.
  - change (CPut (path_str p) (upload_target folder_name p) ::
              map (fun p => CPut (path_str p) (upload_target folder_name p)) rest)
      with ([CPut (path_str p) (upload_target folder_name p)] ++
              map (fun p => CPut (path_str p) (upload_target folder_name p)) rest).
    apply puts_within_bind; [apply puts_within_upload_one|intros; apply IH].
Qed.

End Puts.
End UploaderKeyFacts.

Module NameFacts.

Lemma digits_aux_chars f n acc :
  Forall (fun c => 48 <= c <= 57) acc ->
  Forall (fun c => 48 <= c <= 57) (digits_aux f n acc).
Proof.
  revert n acc. induction f as [|f IH]; intros n acc Hacc; simpl; [exact Hacc|].
  assert (Hd : 48 <= 48 + n mod 10 <= 57) by (pose proof (Z.mod_pos_bound n 10); lia).
  destruct (n <? 10); [constructor; assumption|].
  apply IH. constructor; assumption.
Qed.

Lemma pad2_chars n : Forall (fun c => 48 <= c <= 57) (pad2 n).
Proof.
  unfold pad2, digits. destruct (n <? 10).
  - constructor; [lia|]. apply digits_aux_chars. constructor.
  - apply digits_aux_chars. constructor.
Qed.

Lemma strftime_mdy_chars t : Forall (fun c => c <> 46 /\ c <> 47) (strftime_mdy t).
Proof.
  unfold strftime_mdy. destruct (civil_from_days _) as [[y m] d].
  assert (H : forall l, Forall (fun c => 48 <= c <= 57) l -> Forall (fun c => c <> 46 /\ c <> 47) l).
  { intros l Hl. eapply Forall_impl; [exact Hl|]. intros c Hc. cbv beta in *. lia. }
  repeat apply Forall_app_2; try (apply H; apply pad2_chars);
    try (repeat constructor; lia).
  apply H, digits_aux_chars. constructor.
Qed.

Lemma lstrip_in u s c : In c (lstrip u s) -> In c s.
Proof.
  induction s as [|x r IH]; simpl; [tauto|].
  destruct (py_isspace u x); [intros; right; auto|auto].
Qed.

Lemma strip_in u s c : In c (strip u s) -> In c s.
Proof.
  unfold strip. intros H. apply in_rev in H. apply lstrip_in in H.
  apply in_rev in H. apply lstrip_in in H. exact H.
Qed.

Lemma sanitize_safe u n t c : In c (Config.sanitize u n t) -> Config.safe_char u c = true.
Proof.
  unfold Config.sanitize. intros H.
  assert (H' : In c (strip u (filter (Config.safe_char u) t))).
  { rewrite <- (firstn_skipn n (strip u (filter (Config.safe_char u) t))).
    apply in_or_app. left. exact H. }
  apply strip_in in H'. clear H. rename H' into H.
  apply list_elem_of_In, list_elem_of_filter in H as [H _]. apply Is_true_true_1. exact H.
Qed.

Lemma sanitize_length u n t : (length (Config.sanitize u n t) <= n)%nat.
Proof. unfold Config.sanitize. rewrite length_firstn. lia. Qed.

Lemma safe_char_not u c :
  py_isalnum u c = false -> c <> 32 -> c <> 45 -> c <> 95 -> Config.safe_char u c = false.
Proof.
  intros Ha H1 H2 H3. unfold Config.safe_char. rewrite Ha.
  rewrite (proj2 (Z.eqb_neq c 32) H1), (proj2 (Z.eqb_neq c 45) H2), (proj2 (Z.eqb_neq c 95) H3).
  reflexivity.
Qed.

End NameFacts.

(* ------------------------------------------------------------------ *)
(** ** Further properties of the code *)

Module StyleExtras.
Import StrFacts.

(** X4: [get_pdf_styles] returns a CSS file's text unchanged when the font
    size and image width are the defaults 13 and 400, or when the text
    contains neither [13px] nor [400px]. *)
Theorem css_file_unchanged_under_defaults (css : pystr) (font_size max_image_width : Z) :
  ((font_size = 13 /\ max_image_width = 400) \/
   (forall i, PyStr.startswith (drop i css) (s2p "13px") = false /\
              PyStr.startswith (drop i css) (s2p "400px") = false)) ->
  ProcessorIO.get_pdf_styles (Some (Some css)) (s2p "A4") (s2p "0.375in")
    font_size max_image_width = css.
Proof.
  intros H. unfold ProcessorIO.get_pdf_styles.
  rewrite replace_self, replace_self by discriminate.
  destruct H as [[-> ->] | H].
  - rewrite replace_self, replace_self by discriminate. reflexivity.
  - rewrite (replace_absent css (s2p "13px")) by (discriminate || (intros i; apply H)).
    rewrite (replace_absent css (s2p "400px")) by (discriminate || (intros i; apply H)).
    reflexivity.
Qed.
End StyleExtras.

Module FeedsExtras.
Import ProcessorIO StripFacts.

(** X5: every URL [load_feeds] returns is non-empty and already stripped of
    surrounding whitespace; a missing or unreadable feeds file gives no
    URLs. *)
Theorem load_feeds_returns_stripped_urls (u : PyUnicode) (feeds_file : option (option pystr)) :
  (forall f, In f (load_feeds u feeds_file) -> f <> [] /\ strip u f = f) /\
  (feeds_file = None \/ feeds_file = Some None -> load_feeds u feeds_file = []).
Proof.
  split.
  - intros f Hf. destruct feeds_file as [[text|]|]; simpl in Hf; try contradiction.
    apply in_map_iff in Hf as [line [<- Hl]]. apply filter_In in Hl as [_ Hq].
    unfold feed_line in Hq. apply andb_prop in Hq as [Hne _].
    split; [destruct (strip u line); discriminate|]. apply strip_idem.
  - intros [-> | ->]; reflexivity.
Qed.

(** X6: [load_feeds] tests for ['#'] on the raw line, so a comment line
    indented by whitespace is returned, stripped, as a feed URL. *)
Theorem load_feeds_keeps_indented_comments (u : PyUnicode) (text line rest : pystr) :
  py_isspace u 35 = false ->
  In line (file_lines text) ->
  (exists c r, line = c :: r /\ py_isspace u c = true) ->
  strip u line = 35 :: rest ->
  In (35 :: rest) (load_feeds u (Some (Some text))).
Proof.
  intros H35 Hin [c [r [-> Hc]]] Hs. simpl. rewrite <- Hs. apply in_map.
  apply filter_In. split; [exact Hin|]. unfold feed_line. rewrite Hs.
  assert (E : Z.eqb 35 c = false) by (apply Z.eqb_neq; intros <-; congruence).
  cbn [PyStr.startswith]. rewrite E. reflexivity.
Qed.

End FeedsExtras.

Module EntryExtras.
Import Processor StripFacts.

(** X7: an entry whose title is only whitespace gets an empty title from
    [extract_entry_data] (no ['Untitled'] fallback), and its document name
    is the date followed by [" .pdf"]. *)
Theorem blank_title_gives_bare_date_filename (env : Env) (e : FeedEntry) (ft t : pystr)
    (s : PState) (ed : EntryData) (d : Z) :
  e_title e = Some t ->
  (forall c, In c t -> py_isspace (uni env) c = true) ->
  fst (extract_entry_data env e ft s) = Ok ed ->
  entry_title ed = [] /\
  Config.get_output_filename (uni env) (entry_title ed) ft d = strftime_mdy d ++ s2p " .pdf".
Proof.
  intros Ht Hsp H.
  assert (Hed : entry_title ed = []).
  { unfold extract_entry_data, pbind in H. rewrite Ht in H. simpl in H.
    repeat (case_match; simpl in H; try discriminate).
    all: injection H as <-; simpl; apply strip_all_space; exact Hsp. }
  split; [exact Hed|]. rewrite Hed. reflexivity.
Qed.
End EntryExtras.

Module StartupExtras.
Import Startup StartupFacts.


(** X2: [main()] overrides [Config.RECENT_HOURS] only with a non-zero
    [--recent-hours] and [Config.OUTPUT_DIR] only with a non-empty
    [--output-dir]; otherwise the values read from the environment (or
    their defaults) stay. *)
Theorem zero_or_empty_options_ignored (environ : gmap pystr pystr) (module_dir : pystr)
    (py_int : pystr -> option Z) (ns0 : gmap pystr PyVal) (args : Args) :
  config_class environ module_dir py_int = Some ns0 ->
  let env_hours := py_int (os_getenv environ "RECENT_HOURS" (s2p "24")) in
  let env_output := os_getenv environ "OUTPUT_DIR"
                      (os_path_join (os_getenv environ "APP_ROOT" module_dir) (s2p "output")) in
  apply_overrides args ns0 !! s2p "RECENT_HOURS" =
    option_map VInt (match recent_hours args with
                     | Some n => if Z.eqb n 0 then env_hours else Some n
                     | None => env_hours
                     end) /\
  apply_overrides args ns0 !! s2p "OUTPUT_DIR" =
    Some (VStr (match output_dir args with
                | Some ((_ :: _) as d) => d
                | _ => env_output
                end)).
Proof.
  intros Hc. cbv zeta.
  assert (Hh : ns0 !! s2p "RECENT_HOURS"
                 = option_map VInt (py_int (os_getenv environ "RECENT_HOURS" (s2p "24"))) /\
               ns0 !! s2p "OUTPUT_DIR"
                 = Some (VStr (os_getenv environ "OUTPUT_DIR"
                      (os_path_join (os_getenv environ "APP_ROOT" module_dir) (s2p "output"))))).
  { unfold config_class in Hc. repeat case_match; simplify_eq.
    cbn [option_map].
    split; apply elem_of_list_to_map_1;
      try (apply (bool_decide_eq_true _); vm_compute; reflexivity);
      apply list_elem_of_In; simpl; repeat (first [left; reflexivity | right]). }
  destruct Hh as [Hh Ho].
  unfold apply_overrides, override_str.
  split; repeat case_match; simplify_eq;
    repeat first [rewrite lookup_insert_eq | rewrite lookup_insert_ne by key_ne];
    simpl; congruence.
Qed.
(** X3: [Config.setup_directories] rebinds at most [TEMPLATE_DIR] and
    [CSS_FILE]; when it rebinds them, the new template directory exists
    and [CSS_FILE] is [style.css] inside it; when the configured
    [TEMPLATE_DIR] already exists, it changes nothing. *)
Theorem setup_directories_keeps_other_settings {W} (os : OS W) ns w ns' w' :
  setup_directories os ns w = (Processor.Ok ns', w') ->
  (forall k, k <> s2p "TEMPLATE_DIR" -> k <> s2p "CSS_FILE" -> ns' !! k = ns !! k) /\
  (ns' = ns \/ exists d, ns' !! s2p "TEMPLATE_DIR" = Some (VStr d) /\ os_exists os w' d = true /\
                 ns' !! s2p "CSS_FILE" = Some (VStr (os_path_join d (s2p "style.css")))) /\
  (forall d, getattr_str ns "TEMPLATE_DIR" = Some d -> os_exists os w' d = true -> ns' = ns).
Proof. apply setup_directories_frame. Qed.

End StartupExtras.

Module ProcessorExtras.
Import Processor ProcessorSpec ProcessorStatsSpec ProcessorStatsFacts.

(** X8: [process_all_feeds] always returns its statistics, and they are
    consistent: generated plus skipped documents are at most the recent
    entries, which are at most generated, skipped and failed documents
    together, which are at most the entries found; every feed is counted
    as processed or failed (at least once), and neither count exceeds the
    number of feeds. *)
Theorem process_all_feeds_counters_consistent (env : Env) (feeds : list pystr) (s : PState) :
  exists st s', process_all_feeds env feeds s = (Ok st, s') /\ stats s' = st /\
    (pdfs_generated st + pdfs_skipped st <= entries_recent st)%nat /\
    (entries_recent st <= pdfs_generated st + pdfs_skipped st + pdfs_failed st)%nat /\
    (pdfs_generated st + pdfs_skipped st + pdfs_failed st <= entries_found st)%nat /\
    (length feeds <= feeds_processed st + feeds_failed st)%nat /\
    (feeds_processed st <= length feeds)%nat /\ (feeds_failed st <= length feeds)%nat.
Proof.
  unfold process_all_feeds, pbind, set_stats, get_stats, pret.
  destruct feeds as [|u rest].
  - eexists _, _. split; [reflexivity|]. simpl. repeat split; lia.
  - match goal with |- context [process_feeds env ?acc ?fs0 ?x] =>
      destruct (process_feeds env acc fs0 x) as [[[n paths]|] s1] eqn:E end;
    [|destruct (ProcessorFacts.process_feeds_run env (0%nat, []) (u :: rest)
          {| stats := zero_stats; fs := fs s; clock := clock s; events := events s |})
        as (r' & s'' & E' & _); rewrite E' in E; discriminate].
    destruct (process_feeds_delta _ _ _ _ _ _ E) as (dfp & dff & def & P & F & N & H1 & H2 & H3 & D).
    destruct D as (a & b & c & new & Hab & Hc & P' & E' & A' & R' & L' & G' & F' & K').
    simpl in P, F, N, P', E', A', H1, H2, H3. unfold pall, pgps in A', P'. simpl in A', P'.
    destruct paths; (eexists _, _; split; [reflexivity|]); simpl;
      unfold pall, pgps in *; split_and?; try reflexivity; lia.
Qed.

(** X9: the documents [process_all_feeds] hands to the uploader are
    exactly the generated and skipped ones (their number is
    [pdfs_generated + pdfs_skipped]), each exists on disk at the end of the
    run, and the three reMarkable counters are the uploader's counts, or
    0 when there was nothing to upload. *)
Theorem process_all_feeds_uploads_collected_documents (env : Env) (feeds : list pystr) (s : PState) :
  exists n paths s1 st s',
    process_feeds env (0%nat, []) feeds (snd (set_stats zero_stats s)) = (Ok (n, paths), s1) /\
    process_all_feeds env feeds s = (Ok st, s') /\
    length paths = (pdfs_generated st + pdfs_skipped st)%nat /\
    Forall (fun p => is_Some (fs s' !! p)) paths /\
    (remarkable_uploaded st, remarkable_skipped st, remarkable_failed st) =
      match paths with
      | [] => (0%nat, 0%nat, 0%nat)
      | _ :: _ => let c := upload_pdfs env paths in
                  (Uploader.uploaded c, Uploader.skipped c, Uploader.failed c)
      end.
Proof.
  destruct (ProcessorFacts.process_feeds_run env (0%nat, []) feeds (snd (set_stats zero_stats s)))
    as ([n paths] & s1 & E & _).
  destruct (process_feeds_delta _ _ _ _ _ _ E) as (dfp & dff & def & P & F & N & H1 & H2 & H3 & D).
  destruct D as (a & b & c & new & Hab & Hc & P' & E' & A' & R' & L' & G' & F' & K').
  simpl in R'. subst new.
  exists n, paths, s1. pose proof E as E0.
  unfold process_all_feeds, pbind, set_stats, get_stats, pret.
  destruct feeds as [|u rest].
  - simpl in E. injection E as <- <- <-. simpl.
    eexists _, _. split; [reflexivity|]. split; [reflexivity|]. simpl.
    repeat split; constructor.
  - cbv [snd set_stats] in E. rewrite E.
    unfold pgps, remote_counts in P', K'. simpl in P', K'.
    destruct paths as [|p ps]; (eexists _, _; split; [exact E0|]; split; [reflexivity|]); simpl.
    + simpl in *. split; [lia|]. split; [constructor|]. rewrite K'. reflexivity.
    + simpl in *. split; [lia|]. split; [exact F'|reflexivity].
Qed.

End ProcessorExtras.

Module UploaderExtras.
Import Uploader UploaderSpec UploaderPutSpec UploaderKeyFacts ProcessorSpec.


(** X13: [upload_pdfs] only appends to the command log, and the [rmapi put]
    commands it issues are, in order, a sub-list of one put per given
    document, each to that document's target folder. *)
Theorem upload_pdfs_puts_only_listed_documents {RS} (br : Bridge RS) (folder_name : pystr)
  (pdf_files : list Path) (rs : RS) (log : list Cmd) :
  let '(_, (_, log')) := upload_pdfs br folder_name pdf_files (rs, log) in
  exists added, log' = log ++ added /\
    sublist (List.filter is_put added)
      (map (fun p => CPut (path_str p) (upload_target folder_name p)) pdf_files).
Proof.
  destruct (upload_pdfs br folder_name pdf_files (rs, log)) as [c [rs' log']] eqn:E.
  assert (H : puts_within (upload_pdfs br folder_name pdf_files)
                (map (fun p => CPut (path_str p) (upload_target folder_name p)) pdf_files)).
  { unfold upload_pdfs.
    apply puts_within_bind_l; [apply UploaderFacts.no_put_check|]. intros available.
    destruct (negb available); [apply puts_within_ret|].
    apply puts_within_bind_l; [apply UploaderFacts.no_put_find_or_mkdir|]. intros ok.
    destruct (negb ok); [apply puts_within_ret|].
    apply puts_within_upload_loop. }
  exact (H _ _ _ E).
Qed.

(** X14: when the existence check of [upload_pdfs]' loop reports a
    document absent, [upload_pdf] runs [rmapi find] on the same remote key
    again: the first two commands of the document's upload are these two
    [find]s. *)
Theorem upload_one_finds_missing_document_twice {RS} (br : Bridge RS) (folder_name : pystr)
  (acc : UploadCounts) (p : Path) (rs : RS) (log : list Cmd)
  (Hmissing : fst (file_exists_in_remarkable br
                     (get_remarkable_file_path folder_name p (feed_subfolder_of p)) (rs, log)) = false) :
  let key := get_remarkable_file_path folder_name p (feed_subfolder_of p) in
  exists c rs' rest,
    upload_one br folder_name acc p (rs, log) = (c, (rs', log ++ CFind key :: CFind key :: rest)).
Proof.
  intros key. fold key in Hmissing.
  revert Hmissing.
  cbv [upload_one upload_pdf file_exists_in_remarkable ensure_folder_exists
       ensure_subfolder_exists find_or_mkdir put_pdf ubind uret subprocess_run].
  fold key. simpl.
  intros Hmissing.
  repeat (case_match; simplify_eq/=);
    eexists _, _, _; rewrite <- ?app_assoc; reflexivity.
Qed.

End UploaderExtras.

Module NameExtras.
Import NameFacts.

(** X15: when ['/'] and ['.'] are not alphanumeric, a feed directory name
    contains neither, has at most 50 characters, and a document name
    contains no ['/'], its title part having at most 60 characters: the
    names never leave the output directory. *)
Theorem output_names_stay_single_components (u : PyUnicode) (entry_title feed_title : pystr) (d : Z)
  (Hslash : py_isalnum u 47 = false) (Hdot : py_isalnum u 46 = false) :
  ~ In 47 (Config.get_feed_directory u feed_title) /\
  ~ In 46 (Config.get_feed_directory u feed_title) /\
  (length (Config.get_feed_directory u feed_title) <= 50)%nat /\
  ~ In 47 (Config.get_output_filename u entry_title feed_title d) /\
  (length (Config.sanitize u 60 entry_title) <= 60)%nat.
Proof.
  assert (Ns : Config.safe_char u 47 = false) by (apply safe_char_not; auto; lia).
  assert (Nd : Config.safe_char u 46 = false) by (apply safe_char_not; auto; lia).
  unfold Config.get_feed_directory, Config.get_output_filename.
  split_and!.
  - intros H. apply sanitize_safe in H. congruence.
  - intros H. apply sanitize_safe in H. congruence.
  - apply sanitize_length.
  - intros H. apply in_app_or in H as [H|H].
    + pose proof (strftime_mdy_chars d) as F. rewrite List.Forall_forall in F.
      apply F in H. lia.
    + simpl in H. destruct H as [H|H]; [lia|].
      apply in_app_or in H as [H|H].
      * apply sanitize_safe in H. congruence.
      * vm_compute in H. intuition congruence.
  - apply sanitize_length.
Qed.

End NameExtras.

Module ProcessorEdgeExtras.
Import Processor ProcessorSpec.



End ProcessorEdgeExtras.

Module ExtraWitnesses.
Import Processor Inputs ExtraInputs.


Lemma zero_or_empty_options_ignored_witness :
  Startup.config_class ∅ (s2p "/app") py_int_digits = Some default_ns /\
  Startup.apply_overrides zero_args default_ns !! s2p "RECENT_HOURS" = Some (Startup.VInt 24) /\
  Startup.apply_overrides zero_args default_ns !! s2p "OUTPUT_DIR"
    = Some (Startup.VStr (s2p "/app/output")).
Proof.
  assert (Hc : Startup.config_class ∅ (s2p "/app") py_int_digits = Some default_ns)
    by (vm_compute; reflexivity).
  split; [exact Hc|].
  exact (StartupExtras.zero_or_empty_options_ignored ∅ (s2p "/app") py_int_digits default_ns
           zero_args Hc).
Defined.

Lemma setup_directories_keeps_other_settings_witness :
  exists ns' w',
    Startup.setup_directories os_templates default_ns tt = (Ok ns', w') /\
    ns' !! s2p "CSS_FILE" = Some (Startup.VStr (s2p "/templates/style.css")) /\
    ns' !! s2p "OUTPUT_DIR" = default_ns !! s2p "OUTPUT_DIR".
Proof.
  exists (<[s2p "CSS_FILE" := Startup.VStr (s2p "/templates/style.css")]>
            (<[s2p "TEMPLATE_DIR" := Startup.VStr (s2p "/templates")]> default_ns)), tt.
  assert (E : Startup.setup_directories os_templates default_ns tt =
    (Ok (<[s2p "CSS_FILE" := Startup.VStr (s2p "/templates/style.css")]>
          (<[s2p "TEMPLATE_DIR" := Startup.VStr (s2p "/templates")]> default_ns)), tt))
    by (vm_compute; reflexivity).
  destruct (StartupExtras.setup_directories_keeps_other_settings os_templates default_ns tt _ _ E)
    as [Hk _].
  split; [exact E|]. split; [vm_compute; reflexivity|].
  apply Hk; vm_compute; discriminate.
Defined.

Lemma css_file_unchanged_under_defaults_witness :
  ProcessorIO.get_pdf_styles (Some (Some (s2p "body { font-size: 13px; }"))) (s2p "A4")
    (s2p "0.375in") 13 400 = s2p "body { font-size: 13px; }".
Proof.
  apply StyleExtras.css_file_unchanged_under_defaults. left. split; reflexivity.
Defined.

Lemma load_feeds_keeps_indented_comments_witness :
  In (s2p "#x") (ProcessorIO.load_feeds ascii_unicode (Some (Some feeds_text))).
Proof.
  apply (FeedsExtras.load_feeds_keeps_indented_comments ascii_unicode feeds_text
           (s2p "  #x" ++ [10]) (s2p "x")).
  - reflexivity.
  - vm_compute. left. reflexivity.
  - exists 32, (s2p " #x" ++ [10]). split; reflexivity.
  - reflexivity.
Defined.

Lemma blank_title_gives_bare_date_filename_witness :
  entry_title {| entry_title := []; feed_title := my_feed; content := s2p "<p>x</p>";
                 author := s2p "Unknown Author"; link := []; entry_id := s2p "entry_0" |} = [] /\
  Config.get_output_filename ascii_unicode [] my_feed (t0 - hour)
    = strftime_mdy (t0 - hour) ++ s2p " .pdf".
Proof.
  apply (EntryExtras.blank_title_gives_bare_date_filename env_ok blank_entry my_feed (s2p "  ") st0).
  - reflexivity.
  - intros c [<- | [<- | []]]; reflexivity.
  - vm_compute. reflexivity.
Defined.




Lemma upload_one_finds_missing_document_twice_witness :
  let key := Uploader.get_remarkable_file_path UploaderInputs.atom_feeds article_pdf
               (Uploader.feed_subfolder_of article_pdf) in
  exists c rs' rest,
    Uploader.upload_one UploaderInputs.missing_rmapi UploaderInputs.atom_feeds
      {| Uploader.uploaded := 0; Uploader.failed := 0; Uploader.skipped := 0 |} article_pdf (tt, [])
    = (c, (rs', [] ++ Uploader.CFind key :: Uploader.CFind key :: rest)).
Proof.
  apply UploaderExtras.upload_one_finds_missing_document_twice. vm_compute. reflexivity.
Defined.

Lemma output_names_stay_single_components_witness :
  ~ In 47 (Config.get_feed_directory ascii_unicode (s2p "a/b.c")) /\
  ~ In 46 (Config.get_feed_directory ascii_unicode (s2p "a/b.c")) /\
  (length (Config.get_feed_directory ascii_unicode (s2p "a/b.c")) <= 50)%nat /\
  ~ In 47 (Config.get_output_filename ascii_unicode (s2p "../x") (s2p "a/b.c") t0) /\
  (length (Config.sanitize ascii_unicode 60 (s2p "../x")) <= 60)%nat.
Proof.
  apply NameExtras.output_names_stay_single_components; reflexivity.
Defined.

End ExtraWitnesses.
